(** * nn_builder.pytorch.CNN: construction of a convolutional network

    A shallow embedding of [src/nn_builder/pytorch/CNN.py].  The methods of
    the class [CNN] are computations in a state-and-exception monad over the
    object [self] and the log of framework layer objects built so far. *)

From Stdlib Require Import ZArith Ascii String Lia.
From stdpp Require Import base gmap strings list.

Set Warnings "-register-all".
Open Scope string_scope.
Open Scope list_scope.
Open Scope Z_scope.

(** ** Python values *)

Module Py.

(** The values the constructor arguments are made of: integers, strings
    (ASCII text) and lists. *)
Inductive pyval : Type :=
| PInt (z : Z)
| PStr (s : string)
| PList (l : list pyval).

(** Arguments of [str.format]. The text of a formatted set lists its
    elements in an unspecified order, so a formatted message keeps its
    template and arguments. *)
Inductive fmt_arg : Type :=
| FStr (s : string)
| FSet (xs : gset string).

Inductive message : Type :=
| Literal (s : string)
| Format (template : string) (args : list fmt_arg).

Inductive exn : Type :=
| AssertionError (msg : message)
| ValueError (msg : message)
| IndexError
| TypeError
| AttributeError.

Inductive result (A : Type) : Type :=
| Ok (a : A)
| Raise (e : exn).
Arguments Ok {A} a.
Arguments Raise {A} e.

(** [str.lower] on ASCII text. *)
Definition lower_ascii (c : ascii) : ascii :=
  let n := N_of_ascii c in
  if ((65 <=? n) && (n <=? 90))%N then ascii_of_N (n + 32) else c.

Fixpoint lower (s : string) : string :=
  match s with
  | EmptyString => EmptyString
  | String c r => String (lower_ascii c) (lower r)
  end.

(** [x.lower()]: only strings have the method. *)
Definition py_lower (x : pyval) : result string :=
  match x with
  | PStr s => Ok (lower s)
  | _ => Raise AttributeError
  end.

(** [l[i]] on a sequence, for an integer [i]; a negative [i] counts from
    the end. *)
Definition seq_index {A : Type} (l : list A) (i : Z) : result A :=
  let n := Z.of_nat (length l) in
  let j := if i <? 0 then i + n else i in
  if (j <? 0) || (n <=? j) then Raise IndexError
  else match l !! Z.to_nat j with
       | Some a => Ok a
       | None => Raise IndexError
       end.

(** [x[i]]: lists and strings are subscriptable, integers are not. *)
Definition getitem (x : pyval) (i : Z) : result pyval :=
  match x with
  | PList l => seq_index l i
  | PStr s =>
      match seq_index (list_ascii_of_string s) i with
      | Ok c => Ok (PStr (String c EmptyString))
      | Raise e => Raise e
      end
  | PInt _ => Raise TypeError
  end.

Fixpoint str_repeat (s : string) (n : nat) : string :=
  match n with
  | O => EmptyString
  | S k => String.append s (str_repeat s k)
  end.

Fixpoint list_repeat {A : Type} (l : list A) (n : nat) : list A :=
  match n with
  | O => []
  | S k => l ++ list_repeat l k
  end.

(** [a * b]: the product of two integers, or a sequence repeated. *)
Definition py_mul (a b : pyval) : result pyval :=
  match a, b with
  | PInt x, PInt y => Ok (PInt (x * y))
  | PStr s, PInt n | PInt n, PStr s => Ok (PStr (str_repeat s (Z.to_nat n)))
  | PList l, PInt n | PInt n, PList l => Ok (PList (list_repeat l (Z.to_nat n)))
  | _, _ => Raise TypeError
  end.

(** [isinstance(x, list)] *)
Definition isinstance_list (x : pyval) : bool :=
  match x with
  | PList _ => true
  | _ => false
  end.

End Py.
Export Py.

(** ** The layer catalogue of the framework *)

Module nn.

(** A layer object of [torch.nn], as the arguments it was built from. The
    framework's own checks of these arguments are outside the embedding. *)
Inductive Module_ : Type :=
| Conv2d (in_channels out_channels kernel_size stride padding : pyval)
| MaxPool2d (kernel_size stride padding : pyval)
| AvgPool2d (kernel_size stride padding : pyval)
| AdaptiveMaxPool2d (output_size : pyval * pyval)
| AdaptiveAvgPool2d (output_size : pyval * pyval)
| Linear (in_features out_features : pyval).

(** The attribute [output_size], which the adaptive pools have. *)
Definition output_size (m : Module_) : result (pyval * pyval) :=
  match m with
  | AdaptiveMaxPool2d o | AdaptiveAvgPool2d o => Ok o
  | _ => Raise AttributeError
  end.

(** The attribute [out_features], which [Linear] has. *)
Definition out_features (m : Module_) : result pyval :=
  match m with
  | Linear _ o => Ok o
  | _ => Raise AttributeError
  end.

(** The attribute [in_features], which [Linear] has. *)
Definition in_features (m : Module_) : result pyval :=
  match m with
  | Linear i _ => Ok i
  | _ => Raise AttributeError
  end.

End nn.
Export nn.

(** ** The object and the monad of its methods *)

(** The fields of a [CNN] object that the methods read and write. *)
Record CNN : Type := mkCNN {
  input_dim : pyval;
  hidden_layers_info : list pyval;
  output_dim : pyval;
  initialiser : string;
  random_seed : Z;
  valid_cnn_hidden_layer_types : gset string;
  hidden_layers : list Module_;
  output_layers : list Module_
}.

(** The state a method runs in: the object, and the layer objects the
    framework has built so far, oldest first. *)
Record world : Type := mkWorld {
  self : CNN;
  built : list Module_
}.

(** A method either returns or raises; the state survives a raise. *)
Definition M (A : Type) : Type := world -> result A * world.

Definition ret {A : Type} (a : A) : M A := fun w => (Ok a, w).

Definition bind {A B : Type} (m : M A) (k : A -> M B) : M B :=
  fun w =>
    match m w with
    | (Ok a, w') => k a w'
    | (Raise e, w') => (Raise e, w')
    end.

Notation "'let*' x := m 'in' k" := (bind m (fun x => k))
  (at level 10, x name, m at level 100, k at level 200).
Notation "'do' m 'in' k" := (bind m (fun _ => k))
  (at level 10, m at level 100, k at level 200).

Definition raise {A : Type} (e : exn) : M A := fun w => (Raise e, w).

(** A pure Python operation that may raise. *)
Definition lift {A : Type} (r : result A) : M A := fun w => (r, w).

(** [self.f] *)
Definition get_attr {A : Type} (f : CNN -> A) : M A := fun w => (Ok (f (self w)), w).

(** [assert c, msg] *)
Definition assert (c : bool) (msg : message) : M unit :=
  if c then ret tt else raise (AssertionError msg).

(** A call of a layer constructor of the framework: the object is built
    and recorded. The constructors of the framework raise on sizes they do
    not accept (a size that is not an integer, a negative one, one too
    large to allocate); which sizes those are is outside the embedding,
    where the call always returns. A statement below about a run that
    builds layers therefore takes the return of the run as a hypothesis,
    and a statement about a run that raises is about a run that raises
    before the constructor is called. *)
Definition new (m : Module_) : M Module_ :=
  fun w => (Ok m, {| self := self w; built := built w ++ [m] |}).

(** Assignments to the fields of [self]. *)
Definition with_output_dim (v : pyval) (s : CNN) : CNN :=
  {| input_dim := input_dim s;
     hidden_layers_info := hidden_layers_info s;
     output_dim := v;
     initialiser := initialiser s;
     random_seed := random_seed s;
     valid_cnn_hidden_layer_types := valid_cnn_hidden_layer_types s;
     hidden_layers := hidden_layers s;
     output_layers := output_layers s |}.

Definition with_hidden_layers (v : list Module_) (s : CNN) : CNN :=
  {| input_dim := input_dim s;
     hidden_layers_info := hidden_layers_info s;
     output_dim := output_dim s;
     initialiser := initialiser s;
     random_seed := random_seed s;
     valid_cnn_hidden_layer_types := valid_cnn_hidden_layer_types s;
     hidden_layers := v;
     output_layers := output_layers s |}.

Definition with_output_layers (v : list Module_) (s : CNN) : CNN :=
  {| input_dim := input_dim s;
     hidden_layers_info := hidden_layers_info s;
     output_dim := output_dim s;
     initialiser := initialiser s;
     random_seed := random_seed s;
     valid_cnn_hidden_layer_types := valid_cnn_hidden_layer_types s;
     hidden_layers := hidden_layers s;
     output_layers := v |}.

Definition with_hidden_layers_info (v : list pyval) (s : CNN) : CNN :=
  {| input_dim := input_dim s;
     hidden_layers_info := v;
     output_dim := output_dim s;
     initialiser := initialiser s;
     random_seed := random_seed s;
     valid_cnn_hidden_layer_types := valid_cnn_hidden_layer_types s;
     hidden_layers := hidden_layers s;
     output_layers := output_layers s |}.

Definition modify_self (f : CNN -> CNN) : M unit :=
  fun w => (Ok tt, {| self := f (self w); built := built w |}).

(** [self.output_dim = v] *)
Definition set_output_dim (v : pyval) : M unit := modify_self (with_output_dim v).

(** [for x in xs: acc = body x acc] *)
Fixpoint for_each {A B : Type} (xs : list A) (body : A -> B -> M B) (acc : B) : M B :=
  match xs with
  | [] => ret acc
  | x :: rest => let* acc' := body x acc in for_each rest body acc'
  end.

(** ** The methods of [CNN] *)

Definition layer_name_msg (layer_name : string) (valid : gset string) : message :=
  Format "Layer name {} not valid, use one of {}" [FStr layer_name; FSet valid].

(** The body of the loop of [create_hidden_layers], on the locals
    [cnn_hidden_layers] and [in_channels]. *)
Definition hidden_layer_body (layer : pyval) (locals : list Module_ * pyval)
  : M (list Module_ * pyval) :=
  let '(cnn_hidden_layers, in_channels) := locals in
  let* l0 := lift (getitem layer 0) in
  let* layer_name := lift (py_lower l0) in
  let* valid := get_attr valid_cnn_hidden_layer_types in
  do assert (bool_decide (layer_name ∈ valid)) (layer_name_msg layer_name valid) in
  if String.eqb layer_name "conv" then
    let* l1 := lift (getitem layer 1) in
    let* l2 := lift (getitem layer 2) in
    let* l3 := lift (getitem layer 3) in
    let* l4 := lift (getitem layer 4) in
    let* m := new (Conv2d in_channels l1 l2 l3 l4) in
    let* c := lift (getitem layer 1) in
    ret (cnn_hidden_layers ++ [m], c)
  else if String.eqb layer_name "maxpool" then
    let* l1 := lift (getitem layer 1) in
    let* l2 := lift (getitem layer 2) in
    let* l3 := lift (getitem layer 3) in
    let* m := new (MaxPool2d l1 l2 l3) in
    ret (cnn_hidden_layers ++ [m], in_channels)
  else if String.eqb layer_name "avgpool" then
    let* l1 := lift (getitem layer 1) in
    let* l2 := lift (getitem layer 2) in
    let* l3 := lift (getitem layer 3) in
    let* m := new (AvgPool2d l1 l2 l3) in
    ret (cnn_hidden_layers ++ [m], in_channels)
  else if String.eqb layer_name "adaptivemaxpool" then
    let* l1 := lift (getitem layer 1) in
    let* l2 := lift (getitem layer 2) in
    let* m := new (AdaptiveMaxPool2d (l1, l2)) in
    ret (cnn_hidden_layers ++ [m], in_channels)
  else if String.eqb layer_name "adaptiveavgpool" then
    let* l1 := lift (getitem layer 1) in
    let* l2 := lift (getitem layer 2) in
    let* m := new (AdaptiveAvgPool2d (l1, l2)) in
    ret (cnn_hidden_layers ++ [m], in_channels)
  else if String.eqb layer_name "linear" then
    let* l1 := lift (getitem layer 1) in
    let* l2 := lift (getitem layer 2) in
    let* m := new (Linear l1 l2) in
    ret (cnn_hidden_layers ++ [m], in_channels)
  else raise (ValueError (Literal "Wrong layer name")).

(** [CNN.create_hidden_layers] *)
Definition create_hidden_layers : M (list Module_) :=
  let* in_channels := get_attr input_dim in
  let* info := get_attr hidden_layers_info in
  let* locals := for_each info hidden_layer_body ([], in_channels) in
  ret (fst locals).

Definition dont_know_msg : message :=
  Literal "Don't know dimensions for output layer. Must use adaptivemaxpool, adaptiveavgpool, or linear as final output layer".

(** [self.hidden_layers_info[-1][0].lower()] *)
Definition last_layer_name : M string :=
  let* info := get_attr hidden_layers_info in
  let* last := lift (seq_index info (-1)) in
  let* l0 := lift (getitem last 0) in
  lift (py_lower l0).

(** [self.hidden_layers[-1]] *)
Definition last_hidden_layer : M Module_ :=
  let* hl := get_attr hidden_layers in
  lift (seq_index hl (-1)).

(** The body of the loop of [create_output_layers]. *)
Definition output_layer_body (input_dim : pyval) (output_dim : pyval)
  (output_layers : list Module_) : M (list Module_) :=
  let* m := new (Linear input_dim output_dim) in
  ret (output_layers ++ [m]).

(** The first statement of [create_output_layers]: the local [input_dim],
    from the last hidden layer. *)
Definition output_layer_input_dim : M pyval :=
  let* name := last_layer_name in
  if String.eqb name "adaptivemaxpool" || String.eqb name "adaptiveavgpool" then
    let* m0 := last_hidden_layer in
    let* s0 := lift (output_size m0) in
    let* m1 := last_hidden_layer in
    let* s1 := lift (output_size m1) in
    lift (py_mul (fst s0) (snd s1))
  else
    let* name' := last_layer_name in
    if String.eqb name' "linear" then
      let* m := last_hidden_layer in
      lift (out_features m)
    else raise (ValueError dont_know_msg).

(** [CNN.create_output_layers] *)
Definition create_output_layers : M (list Module_) :=
  let* input_dim := output_layer_input_dim in
  let* od := get_attr output_dim in
  do (if negb (isinstance_list od) then set_output_dim (PList [od]) else ret tt) in
  let* od' := get_attr output_dim in
  match od' with
  | PList dims => for_each dims (output_layer_body input_dim) []
  | _ => raise TypeError
  end.

(** ** The specification of the hidden layers, as the docstring gives it *)

(** The valid layer names, as [CNN.__init__] sets them. *)
Definition six_layer_types : gset string :=
  {[ "conv"; "maxpool"; "avgpool"; "adaptivemaxpool"; "adaptiveavgpool"; "linear" ]}.

(** The number of fields after the tag in each of the six forms:
    - ["conv", channels, kernel_size, stride, padding]
    - ["maxpool", kernel_size, stride, padding]
    - ["avgpool", kernel_size, stride, padding]
    - ["adaptivemaxpool", output height, output width]
    - ["adaptiveavgpool", output height, output width]
    - ["linear", in, out] *)
Definition arity (layer_name : string) : option nat :=
  if String.eqb layer_name "conv" then Some 4%nat
  else if String.eqb layer_name "maxpool" then Some 3%nat
  else if String.eqb layer_name "avgpool" then Some 3%nat
  else if String.eqb layer_name "adaptivemaxpool" then Some 2%nat
  else if String.eqb layer_name "adaptiveavgpool" then Some 2%nat
  else if String.eqb layer_name "linear" then Some 2%nat
  else None.

(** The layer an entry stands for: [builds c layer m c'] when the entry
    [layer], met with running channel count [c], stands for the layer
    object [m] and leaves the running channel count [c']. *)
Inductive builds : pyval -> pyval -> Module_ -> pyval -> Prop :=
| builds_conv ch tag c k s p rest :
    lower tag = "conv" ->
    builds ch (PList (PStr tag :: c :: k :: s :: p :: rest)) (Conv2d ch c k s p) c
| builds_maxpool ch tag k s p rest :
    lower tag = "maxpool" ->
    builds ch (PList (PStr tag :: k :: s :: p :: rest)) (MaxPool2d k s p) ch
| builds_avgpool ch tag k s p rest :
    lower tag = "avgpool" ->
    builds ch (PList (PStr tag :: k :: s :: p :: rest)) (AvgPool2d k s p) ch
| builds_adaptivemaxpool ch tag h v rest :
    lower tag = "adaptivemaxpool" ->
    builds ch (PList (PStr tag :: h :: v :: rest)) (AdaptiveMaxPool2d (h, v)) ch
| builds_adaptiveavgpool ch tag h v rest :
    lower tag = "adaptiveavgpool" ->
    builds ch (PList (PStr tag :: h :: v :: rest)) (AdaptiveAvgPool2d (h, v)) ch
| builds_linear ch tag a b rest :
    lower tag = "linear" ->
    builds ch (PList (PStr tag :: a :: b :: rest)) (Linear a b) ch.

(** A list of entries and the layers they stand for, the channel count
    threaded from left to right. *)
Inductive threaded : pyval -> list pyval -> list Module_ -> pyval -> Prop :=
| threaded_nil ch : threaded ch [] [] ch
| threaded_cons ch layer m ch' layers ms ch'' :
    builds ch layer m ch' ->
    threaded ch' layers ms ch'' ->
    threaded ch (layer :: layers) (m :: ms) ch''.


(** The output channels a conv entry declares. *)
Definition conv_channels (layer : pyval) : option pyval :=
  match layer with
  | PList (PStr tag :: c :: _) => if String.eqb (lower tag) "conv" then Some c else None
  | _ => None
  end.

(** The running channel count after a prefix of the specification: the
    channels declared by the last conv entry of the prefix, and the input
    channel count of the network when the prefix has no conv entry. *)
Definition running_channels (input_dim : pyval) (prefix : list pyval) : pyval :=
  default input_dim (last (omap conv_channels prefix)).

(** The requested output dimensions as a list: one per output head. *)
Definition requested_dims (output_dim : pyval) : list pyval :=
  match output_dim with
  | PList dims => dims
  | d => [d]
  end.

(** Two entries that differ at most in the capitalisation of the tag. *)
Inductive case_variant : pyval -> pyval -> Prop :=
| case_variant_tag s t fields :
    lower s = lower t ->
    case_variant (PList (PStr s :: fields)) (PList (PStr t :: fields))
| case_variant_refl layer : case_variant layer layer.

(** The state after a run in which the layers [ms] were built. *)
Definition record_built (ms : list Module_) (w : world) : world :=
  {| self := self w; built := built w ++ ms |}.



(** The state after [self.output_dim] has been made a list. *)
Definition normalised (w : world) : world :=
  if isinstance_list (output_dim (self w)) then w
  else {| self := with_output_dim (PList [output_dim (self w)]) (self w);
          built := built w |}.

(** ** The constructor *)

(** The checks that [check_all_user_inputs_valid] calls are methods of the
    base class [Base_Network]; each one reads the object and may raise. *)
Class Base_Network_checks : Type := {
  check_input_dim_valid : CNN -> result unit;
  check_output_dim_valid : CNN -> result unit;
  check_cnn_hidden_layers_valid : CNN -> result unit;
  check_activations_valid : CNN -> result unit;
  check_initialiser_valid : CNN -> result unit;
  check_y_range_values_valid : CNN -> result unit
}.

Definition call_check (check : CNN -> result unit) : M unit :=
  fun w => (check (self w), w).

(** [CNN.check_all_user_inputs_valid] *)
Definition check_all_user_inputs_valid `{Base_Network_checks} : M unit :=
  do call_check check_input_dim_valid in
  do call_check check_output_dim_valid in
  do call_check check_cnn_hidden_layers_valid in
  do call_check check_activations_valid in
  do call_check check_initialiser_valid in
  call_check check_y_range_values_valid.

(** Modelled from the spec: the part of [Base_Network.__init__] that calls
    the methods of the class, which is not in [CNN.py]. The spec gives the
    pass as validation, then the hidden layers, then the output layers;
    the results are stored in [self.hidden_layers] and
    [self.output_layers]. *)
Definition build_layers `{Base_Network_checks} : M unit :=
  do check_all_user_inputs_valid in
  let* hl := create_hidden_layers in
  do modify_self (with_hidden_layers hl) in
  let* ol := create_output_layers in
  modify_self (with_output_layers ol).





(** Text of ASCII characters, on which [lower] is [str.lower]. *)
Fixpoint is_ascii (s : string) : bool :=
  match s with
  | EmptyString => true
  | String c r => (N_of_ascii c <? 128)%N && is_ascii r
  end.

(** An entry whose tag, when it has a string for one, is ASCII text. *)
Definition ascii_tag (layer : pyval) : bool :=
  match layer with
  | PStr s => is_ascii s
  | PList (PStr tag :: _) => is_ascii tag
  | _ => true
  end.

(** The object as the constructor holds it when the methods start, with
    no layer built yet. *)
Definition fresh (hidden_layers_info : list pyval) (output_dim input_dim : pyval) : world :=
  {| self := mkCNN input_dim hidden_layers_info output_dim "default" 0
               six_layer_types [] [];
     built := [] |}.

(** ** Specifications used as examples *)

Definition conv (channels kernel_size stride padding : Z) : pyval :=
  PList [PStr "conv"; PInt channels; PInt kernel_size; PInt stride; PInt padding].

Definition maxpool (kernel_size stride padding : Z) : pyval :=
  PList [PStr "maxpool"; PInt kernel_size; PInt stride; PInt padding].

Definition adaptiveavgpool (height width : Z) : pyval :=
  PList [PStr "adaptiveavgpool"; PInt height; PInt width].

Definition linear (in_ out : Z) : pyval :=
  PList [PStr "linear"; PInt in_; PInt out].

(** [[["conv",16,3,1,1], ["maxpool",2,2,0], ["conv",32,3,1,1],
      ["adaptiveavgpool",4,4], ["linear",16,10]]] *)
Definition example_info : list pyval :=
  [conv 16 3 1 1; maxpool 2 2 0; conv 32 3 1 1; adaptiveavgpool 4 4; linear 16 10].

Definition example_layers : list Module_ :=
  [Conv2d (PInt 3) (PInt 16) (PInt 3) (PInt 1) (PInt 1);
   MaxPool2d (PInt 2) (PInt 2) (PInt 0);
   Conv2d (PInt 16) (PInt 32) (PInt 3) (PInt 1) (PInt 1);
   AdaptiveAvgPool2d (PInt 4, PInt 4);
   Linear (PInt 16) (PInt 10)].

(** [[["conv",16,3,1,1], ["adaptiveavgpool",4,4]]], the example of the
    spec. *)
Definition pooled_info : list pyval := [conv 16 3 1 1; adaptiveavgpool 4 4].

Definition pooled_layers : list Module_ :=
  [Conv2d (PInt 1) (PInt 16) (PInt 3) (PInt 1) (PInt 1); AdaptiveAvgPool2d (PInt 4, PInt 4)].

(** [[["conv",16,3,1,1], ["linear",5,10]]] *)
Definition conv_linear_info : list pyval := [conv 16 3 1 1; linear 5 10].

(** [[["conv",16,3,1,1], ["bogus",1]]] *)
Definition bogus_info : list pyval := [conv 16 3 1 1; PList [PStr "bogus"; PInt 1]].

(** [[["CONV",16,3,1,1], ["AdaptiveAvgPool",4,4]]]: the example of the
    spec in another capitalisation. *)
Definition capitalised_info : list pyval :=
  [PList [PStr "CONV"; PInt 16; PInt 3; PInt 1; PInt 1];
   PList [PStr "AdaptiveAvgPool"; PInt 4; PInt 4]].

(** The object with another specification of the hidden layers. *)
Definition with_info (info : list pyval) (w : world) : world :=
  {| self := with_hidden_layers_info info (self w); built := built w |}.

(** The state in which the output-layer factory starts: the hidden layers
    are built and stored in [self.hidden_layers]. *)
Definition after_hidden (hl : list Module_) (w : world) : world :=
  {| self := with_hidden_layers hl (self w); built := built w ++ hl |}.

(** ** What the loop of the hidden-layer factory does with an entry *)

(** The error the turn of the loop raises on an entry, with the six valid
    names; [None] for an entry the turn builds a layer from: a list that
    starts with a string whose lowercase is one of the six names and has
    at least the fields of its form after it. *)
Definition entry_error (layer : pyval) : option exn :=
  match layer with
  | PInt _ => Some TypeError
  | PStr EmptyString => Some IndexError
  | PStr (String c _) =>
      Some (AssertionError
              (layer_name_msg (String (lower_ascii c) EmptyString) six_layer_types))
  | PList [] => Some IndexError
  | PList (PStr tag :: fields) =>
      match arity (lower tag) with
      | Some n => if (n <=? length fields)%nat then None else Some IndexError
      | None => Some (AssertionError (layer_name_msg (lower tag) six_layer_types))
      end
  | PList (_ :: _) => Some AttributeError
  end.

(** An entry cut down to the fields of its form. *)
Definition trim (layer : pyval) : pyval :=
  match layer with
  | PList (PStr tag :: fields) =>
      match arity (lower tag) with
      | Some n => PList (PStr tag :: take n fields)
      | None => layer
      end
  | _ => layer
  end.

(** The object with another input channel count. *)
Definition with_input_dim (v : pyval) (w : world) : world :=
  {| self := {| input_dim := v;
                hidden_layers_info := hidden_layers_info (self w);
                output_dim := output_dim (self w);
                initialiser := initialiser (self w);
                random_seed := random_seed (self w);
                valid_cnn_hidden_layer_types := valid_cnn_hidden_layer_types (self w);
                hidden_layers := hidden_layers (self w);
                output_layers := output_layers (self w) |};
     built := built w |}.

(** * Properties *)

(** ** Python values *)

Lemma seq_index_nonneg {A : Type} (l : list A) (i : Z) :
  0 <= i ->
  seq_index l i = match l !! Z.to_nat i with Some a => Ok a | None => Raise IndexError end.
Proof.
  intros Hi. unfold seq_index.
  destruct (Z.ltb_spec i 0) as [H0|H0]; [lia|].
  destruct (Z.ltb_spec i 0) as [H1|H1]; [lia|]. simpl.
  destruct (Z.leb_spec (Z.of_nat (length l)) i) as [H2|H2]; [|reflexivity].
  rewrite lookup_ge_None_2; [reflexivity|lia].
Qed.

Lemma seq_index_last {A : Type} (l : list A) (x : A) :
  seq_index (l ++ [x]) (-1) = Ok x.
Proof.
  unfold seq_index. rewrite length_app. simpl length.
  replace (-1 <? 0) with true by reflexivity.
  destruct (Z.ltb_spec (-1 + Z.of_nat (length l + 1)) 0) as [H1|H1]; [lia|].
  destruct (Z.leb_spec (Z.of_nat (length l + 1)) (-1 + Z.of_nat (length l + 1))) as [H2|H2];
    [lia|].
  simpl.
  replace (Z.to_nat (-1 + Z.of_nat (length l + 1))) with (length l + 0)%nat by lia.
  rewrite lookup_app_r by lia.
  replace (length l + 0 - length l)%nat with 0%nat by lia.
  reflexivity.
Qed.

Lemma seq_index_nil {A : Type} (i : Z) : seq_index (@nil A) i = Raise IndexError.
Proof.
  unfold seq_index. simpl length.
  destruct (Z.ltb_spec i 0) as [H0|H0].
  - destruct (Z.ltb_spec (i + Z.of_nat 0) 0) as [H1|H1]; [reflexivity|lia].
  - destruct (Z.ltb_spec i 0) as [H1|H1]; [lia|].
    destruct (Z.leb_spec (Z.of_nat 0) i) as [H2|H2]; [reflexivity|lia].
Qed.

Lemma lower_ascii_idem (c : ascii) : lower_ascii (lower_ascii c) = lower_ascii c.
Proof. destruct c as [[] [] [] [] [] [] [] []]; reflexivity. Qed.

Lemma lower_idem (s : string) : lower (lower s) = lower s.
Proof. induction s as [|c s IH]; simpl; [reflexivity|]. now rewrite lower_ascii_idem, IH. Qed.

(** ** The monad *)

Lemma record_built_nil (w : world) : record_built [] w = w.
Proof. destruct w as [s b]. unfold record_built. simpl. now rewrite app_nil_r. Qed.

Lemma record_built_app (ms ns : list Module_) (w : world) :
  record_built ns (record_built ms w) = record_built (ms ++ ns) w.
Proof. unfold record_built. simpl. now rewrite app_assoc. Qed.

Lemma for_each_app {A B : Type} (xs ys : list A) (body : A -> B -> M B) (acc : B) (w : world) :
  for_each (xs ++ ys) body acc w =
  match for_each xs body acc w with
  | (Ok acc', w') => for_each ys body acc' w'
  | (Raise e, w') => (Raise e, w')
  end.
Proof.
  revert acc w. induction xs as [|x xs IH]; intros acc w; simpl.
  - reflexivity.
  - unfold bind. destruct (body x acc w) as [[acc'|e] w']; [apply IH | reflexivity].
Qed.

Ltac run_step :=
  unfold bind, lift, ret, raise, get_attr, assert, new, getitem;
  rewrite ?seq_index_nonneg by lia;
  change (Z.to_nat 0) with 0%nat; change (Z.to_nat 1) with 1%nat;
  change (Z.to_nat 2) with 2%nat; change (Z.to_nat 3) with 3%nat;
  change (Z.to_nat 4) with 4%nat;
  cbn -[String.eqb lower elem_of bool_decide].

Ltac case_layer_name :=
  repeat (match goal with
          | |- context [String.eqb ?a ?b] => destruct (String.eqb_spec a b)
          end; run_step; try reflexivity).

(** ** The hidden-layer factory *)

(** One turn of the loop either raises, leaving the state as it was, or
    builds the one layer the entry stands for. *)
Lemma hidden_layer_body_spec (layer : pyval) (acc : list Module_) (ch : pyval) (w : world) :
  match hidden_layer_body layer (acc, ch) w with
  | (Ok (acc', ch'), w') =>
      exists m, builds ch layer m ch' /\ acc' = acc ++ [m] /\ w' = record_built [m] w
  | (Raise e, w') => w' = w
  end.
Proof.
  unfold hidden_layer_body.
  destruct layer as [z|s|l].
  - reflexivity.
  - run_step. destruct (list_ascii_of_string s) as [|c0 cs]; run_step; [reflexivity|].
    match goal with
    | |- context [bool_decide ?P] => destruct (bool_decide P)
    end; run_step; [|reflexivity].
    cbn.
    repeat (match goal with
            | |- context [Ascii.eqb ?a ?b] => destruct (Ascii.eqb a b)
            end; cbn; try reflexivity).
  - destruct l as [|x [|a [|b [|c [|d rest]]]]]; run_step; try reflexivity;
      (destruct x as [?|tag|?]; run_step; try reflexivity);
      (match goal with
       | |- context [bool_decide ?P] => destruct (bool_decide P)
       end; run_step; [|reflexivity]);
      case_layer_name.
    all: eexists; split; [econstructor; eassumption | split; reflexivity].
Qed.

Lemma in_six (name : string) :
  name ∈ six_layer_types <->
  name = "conv" \/ name = "maxpool" \/ name = "avgpool" \/
  name = "adaptivemaxpool" \/ name = "adaptiveavgpool" \/ name = "linear".
Proof. unfold six_layer_types. rewrite !elem_of_union, !elem_of_singleton. tauto. Qed.

(** On an entry with a tag outside the six the turn of the loop fails the
    assertion, with the lowercased tag and the valid names in the message,
    and builds nothing. *)
Lemma hidden_layer_body_invalid (tag : string) (fields : list pyval) (acc : list Module_)
  (ch : pyval) (w : world) :
  lower tag ∉ six_layer_types ->
  valid_cnn_hidden_layer_types (self w) = six_layer_types ->
  hidden_layer_body (PList (PStr tag :: fields)) (acc, ch) w =
  (Raise (AssertionError (layer_name_msg (lower tag) six_layer_types)), w).
Proof.
  intros Hout Hvalid. unfold hidden_layer_body. run_step. rewrite Hvalid.
  rewrite bool_decide_eq_false_2 by assumption. reflexivity.
Qed.

Lemma for_each_hidden_ok (info : list pyval) :
  forall acc ch w acc' ch' w',
    for_each info hidden_layer_body (acc, ch) w = (Ok (acc', ch'), w') ->
    exists ms, threaded ch info ms ch' /\ acc' = acc ++ ms /\ w' = record_built ms w.
Proof.
  induction info as [|layer info IH]; intros acc ch w acc' ch' w' Hrun.
  - inversion Hrun; subst. exists []. rewrite app_nil_r, record_built_nil.
    repeat split. constructor.
  - cbn [for_each] in Hrun. unfold bind in Hrun.
    pose proof (hidden_layer_body_spec layer acc ch w) as Hbody.
    destruct (hidden_layer_body layer (acc, ch) w) as [[[acc1 ch1]|e] w1]; [|discriminate Hrun].
    destruct Hbody as (m & Hm & -> & ->).
    apply IH in Hrun. destruct Hrun as (ms & Hms & -> & ->).
    exists (m :: ms). rewrite <- app_assoc, record_built_app. simpl.
    repeat split. econstructor; eassumption.
Qed.

Lemma create_hidden_layers_unfold (w : world) :
  create_hidden_layers w =
  match for_each (hidden_layers_info (self w)) hidden_layer_body ([], input_dim (self w)) w with
  | (Ok locals, w') => (Ok (fst locals), w')
  | (Raise e, w') => (Raise e, w')
  end.
Proof. reflexivity. Qed.

(** What a successful run of the factory returns. *)
Lemma create_hidden_layers_ok (w : world) (hl : list Module_) (w' : world) :
  create_hidden_layers w = (Ok hl, w') ->
  (exists ch', threaded (input_dim (self w)) (hidden_layers_info (self w)) hl ch') /\
  w' = record_built hl w.
Proof.
  rewrite create_hidden_layers_unfold. intros Hrun.
  destruct (for_each _ _ _ w) as [[[acc ch']|e] w1] eqn:Hloop; [|discriminate Hrun].
  inversion Hrun; subst. apply for_each_hidden_ok in Hloop.
  destruct Hloop as (ms & Hms & -> & ->). simpl. eauto.
Qed.

(** ** Entries and the layers they stand for *)




Lemma running_channels_cons (d : pyval) (layer : pyval) (rest : list pyval) :
  running_channels d (layer :: rest) = running_channels (running_channels d [layer]) rest.
Proof.
  unfold running_channels.
  change (omap conv_channels (layer :: rest))
    with (match conv_channels layer with
          | Some c => c :: omap conv_channels rest
          | None => omap conv_channels rest
          end).
  change (omap conv_channels [layer])
    with (match conv_channels layer with Some c => [c] | None => [] end).
  destruct (conv_channels layer) as [c|]; [|reflexivity].
  change (default d (last [c])) with c.
  destruct (omap conv_channels rest) as [|y ys]; [reflexivity|].
  rewrite last_cons_cons.
  destruct (last (y :: ys)) eqn:E; [reflexivity|].
  apply last_None in E. discriminate E.
Qed.

Lemma builds_running (ch : pyval) (layer : pyval) (m : Module_) (ch' : pyval) :
  builds ch layer m ch' -> ch' = running_channels ch [layer].
Proof.
  unfold running_channels.
  destruct 1 as [? ? ? ? ? ? ? E|? ? ? ? ? ? E|? ? ? ? ? ? E|? ? ? ? ? E|? ? ? ? ? E|? ? ? ? ? E];
    cbn [omap list_omap conv_channels]; rewrite E; reflexivity.
Qed.

Lemma threaded_running (ch : pyval) (info : list pyval) (ms : list Module_) (ch' : pyval) :
  threaded ch info ms ch' -> ch' = running_channels ch info.
Proof.
  induction 1 as [|ch layer m ch1 layers ms ch2 Hm Hrest IH]; [reflexivity|].
  rewrite running_channels_cons, <- (builds_running _ _ _ _ Hm). exact IH.
Qed.

(** The layer at each position is the one its entry stands for, met with
    the running channel count of the entries before it. *)
Lemma threaded_lookup (ch : pyval) (info : list pyval) (ms : list Module_) (ch' : pyval) :
  threaded ch info ms ch' ->
  forall (i : nat) (layer : pyval),
    info !! i = Some layer ->
    exists m c',
      ms !! i = Some m /\ builds (running_channels ch (take i info)) layer m c'.
Proof.
  induction 1 as [|ch layer0 m ch1 layers ms ch2 Hm Hrest IH]; intros i layer Hi.
  - destruct i; discriminate Hi.
  - destruct i as [|i]; simpl in Hi.
    + inversion Hi; subst. exists m, ch1. split; [reflexivity|exact Hm].
    + destruct (IH i layer Hi) as (m' & c' & Hlook & Hb).
      exists m', c'. split; [exact Hlook|].
      simpl take. rewrite running_channels_cons, <- (builds_running _ _ _ _ Hm). exact Hb.
Qed.

Lemma for_each_hidden_self (info : list pyval) :
  forall locals w, self (snd (for_each info hidden_layer_body locals w)) = self w.
Proof.
  induction info as [|layer info IH]; intros [acc ch] w; [reflexivity|].
  cbn [for_each]. unfold bind.
  pose proof (hidden_layer_body_spec layer acc ch w) as Hbody.
  destruct (hidden_layer_body layer (acc, ch) w) as [[[acc1 ch1]|e] w1].
  - destruct Hbody as (m & _ & _ & ->). rewrite IH. reflexivity.
  - subst. reflexivity.
Qed.

(** The else-branch of the dispatch is the only place that raises a
    [ValueError]; with the six valid names the assertion keeps every run
    out of it. *)
Lemma hidden_layer_body_no_ValueError (layer : pyval) (locals : list Module_ * pyval)
  (w : world) (msg : message) :
  valid_cnn_hidden_layer_types (self w) = six_layer_types ->
  fst (hidden_layer_body layer locals w) <> Raise (ValueError msg).
Proof.
  intros Hvalid. destruct locals as [acc ch]. unfold hidden_layer_body.
  destruct layer as [z|s|l].
  - discriminate.
  - run_step. destruct (list_ascii_of_string s) as [|c0 cs]; run_step; [discriminate|].
    rewrite Hvalid. case_bool_decide as Hin; run_step; [|discriminate].
    apply in_six in Hin. exfalso.
    destruct Hin as [E|[E|[E|[E|[E|E]]]]]; discriminate E.
  - destruct l as [|x [|a [|b [|c [|d rest]]]]]; run_step; try discriminate;
      (destruct x as [?|tag|?]; run_step; try discriminate);
      rewrite Hvalid;
      (case_bool_decide as Hin; run_step; [|discriminate]);
      apply in_six in Hin;
      (destruct Hin as [E|[E|[E|[E|[E|E]]]]]; rewrite E; cbn; discriminate).
Qed.

Lemma for_each_hidden_no_ValueError (info : list pyval) (msg : message) :
  forall locals w,
    valid_cnn_hidden_layer_types (self w) = six_layer_types ->
    fst (for_each info hidden_layer_body locals w) <> Raise (ValueError msg).
Proof.
  induction info as [|layer info IH]; intros [acc ch] w Hvalid; [discriminate|].
  cbn [for_each]. unfold bind.
  pose proof (hidden_layer_body_spec layer acc ch w) as Hbody.
  pose proof (hidden_layer_body_no_ValueError layer (acc, ch) w msg Hvalid) as Hno.
  destruct (hidden_layer_body layer (acc, ch) w) as [[[acc1 ch1]|e] w1].
  - destruct Hbody as (m & _ & _ & ->). apply IH. exact Hvalid.
  - exact Hno.
Qed.

Lemma running_channels_snoc (d : pyval) (pre : list pyval) (layer : pyval) :
  running_channels d (pre ++ [layer]) = running_channels (running_channels d pre) [layer].
Proof.
  revert d. induction pre as [|x pre IH]; intros d; [reflexivity|].
  simpl app. rewrite (running_channels_cons d x (pre ++ [layer])),
    (running_channels_cons d x pre). apply IH.
Qed.

(** ** The claims on the hidden-layer factory *)

(** C2 (as amended). When the hidden-layer factory returns, the layer at
    the position of a conv entry takes as input channels the running
    channel count of the entries before it, which is the channel count
    declared by the last conv entry before it, or the input channel count
    of the network when there is none; a conv entry sets the running count
    to the channels it declares, and every other entry (the four pooling
    kinds, and linear) leaves it as it was. The layer at the position of a
    linear entry takes as input features the [in] the entry declares
    itself. *)
Theorem channel_threading (w : world) (hl : list Module_) (w' : world) :
  create_hidden_layers w = (Ok hl, w') ->
  let d := input_dim (self w) in
  let info := hidden_layers_info (self w) in
  (forall i tag c k s p rest,
      info !! i = Some (PList (PStr tag :: c :: k :: s :: p :: rest)) ->
      lower tag = "conv" ->
      hl !! i = Some (Conv2d (running_channels d (take i info)) c k s p) /\
      running_channels d (take (S i) info) = c) /\
  (forall i layer,
      info !! i = Some layer ->
      conv_channels layer = None ->
      running_channels d (take (S i) info) = running_channels d (take i info)) /\
  (forall i tag a b rest,
      info !! i = Some (PList (PStr tag :: a :: b :: rest)) ->
      lower tag = "linear" ->
      hl !! i = Some (Linear a b)).
Proof.
  intros Hrun d info.
  destruct (create_hidden_layers_ok w hl w' Hrun) as [[ch' Hth] _].
  fold d info in Hth.
  assert (Hsnoc : forall i layer, info !! i = Some layer ->
            running_channels d (take (S i) info) =
            running_channels (running_channels d (take i info)) [layer]).
  { intros i layer Hi. rewrite (take_S_r _ _ _ Hi). apply running_channels_snoc. }
  split; [|split].
  - intros i tag c k s p rest Hi Htag.
    destruct (threaded_lookup _ _ _ _ Hth i _ Hi) as (m & c' & Hm & Hb).
    split.
    + rewrite Hm. inversion Hb; subst; try congruence.
    + rewrite (Hsnoc _ _ Hi). unfold running_channels.
      cbn [omap list_omap conv_channels]. rewrite Htag. reflexivity.
  - intros i layer Hi Hnone. rewrite (Hsnoc _ _ Hi). unfold running_channels.
    cbn [omap list_omap]. rewrite Hnone. reflexivity.
  - intros i tag a b rest Hi Htag.
    destruct (threaded_lookup _ _ _ _ Hth i _ Hi) as (m & c' & Hm & Hb).
    rewrite Hm. inversion Hb; subst; try congruence.
Qed.

Lemma channel_threading_witness :
  create_hidden_layers (fresh example_info (PInt 10) (PInt 3)) =
    (Ok example_layers, record_built example_layers (fresh example_info (PInt 10) (PInt 3))) /\
  example_layers !! 2%nat =
    Some (Conv2d (PInt 16) (PInt 32) (PInt 3) (PInt 1) (PInt 1)) /\
  example_layers !! 4%nat = Some (Linear (PInt 16) (PInt 10)).
Proof.
  assert (Hrun : create_hidden_layers (fresh example_info (PInt 10) (PInt 3)) =
    (Ok example_layers, record_built example_layers (fresh example_info (PInt 10) (PInt 3))))
    by (vm_compute; reflexivity).
  split; [exact Hrun|].
  destruct (channel_threading _ _ _ Hrun) as (Hconv & _ & Hlin).
  split.
  - exact (proj1 (Hconv 2%nat "conv" (PInt 32) (PInt 3) (PInt 1) (PInt 1) []
                    eq_refl eq_refl)).
  - exact (Hlin 4%nat "linear" (PInt 16) (PInt 10) [] eq_refl eq_refl).
Defined.

(** C2, the counterexample. On [[["conv",16,3,1,1], ["linear",5,10]]] the
    linear layer is built with 5 input features, the [in] of its own
    entry, and not with the 16 channels the conv entry declares. *)
Lemma linear_ignores_running_channels :
  exists hl m,
    fst (create_hidden_layers (fresh conv_linear_info (PInt 10) (PInt 1))) = Ok hl /\
    hl !! 1%nat = Some m /\
    in_features m = Ok (PInt 5) /\
    running_channels (PInt 1) (take 1 conv_linear_info) = PInt 16 /\
    in_features m <> Ok (PInt 16).
Proof.
  exists [Conv2d (PInt 1) (PInt 16) (PInt 3) (PInt 1) (PInt 1); Linear (PInt 5) (PInt 10)],
    (Linear (PInt 5) (PInt 10)).
  repeat split; try (vm_compute; reflexivity). discriminate.
Qed.



(** C9. With the six valid layer names that [__init__] sets, no run of
    the hidden-layer factory raises a [ValueError]: the else-branch of the
    dispatch, which raises [ValueError("Wrong layer name")], is never
    reached, because an entry that passes the assertion takes one of the
    six branches before it. *)
Theorem wrong_layer_name_unreachable (w : world) (msg : message) :
  valid_cnn_hidden_layer_types (self w) = six_layer_types ->
  fst (create_hidden_layers w) <> Raise (ValueError msg).
Proof.
  intros Hvalid. rewrite create_hidden_layers_unfold.
  pose proof (for_each_hidden_no_ValueError (hidden_layers_info (self w)) msg
                ([], input_dim (self w)) w Hvalid) as Hno.
  destruct (for_each _ _ _ w) as [[locals|e] w1]; [discriminate|].
  simpl in *. intros Heq. apply Hno. congruence.
Qed.

Lemma wrong_layer_name_unreachable_witness :
  fst (create_hidden_layers (fresh bogus_info (PInt 10) (PInt 1))) <>
  Raise (ValueError (Literal "Wrong layer name")).
Proof.
  apply (wrong_layer_name_unreachable (fresh bogus_info (PInt 10) (PInt 1))). reflexivity.
Defined.

(** ** The output-layer factory *)

Lemma last_layer_name_snoc (w : world) (pre : list pyval) (tag : string)
  (fields : list pyval) :
  hidden_layers_info (self w) = pre ++ [PList (PStr tag :: fields)] ->
  last_layer_name w = (Ok (lower tag), w).
Proof.
  intros Hinfo. unfold last_layer_name, bind, get_attr, lift.
  rewrite Hinfo, seq_index_last. reflexivity.
Qed.

Lemma last_hidden_layer_snoc (w : world) (hl0 : list Module_) (m : Module_) :
  hidden_layers (self w) = hl0 ++ [m] ->
  last_hidden_layer w = (Ok m, w).
Proof.
  intros Hhl. unfold last_hidden_layer, bind, get_attr, lift.
  rewrite Hhl, seq_index_last. reflexivity.
Qed.

Lemma last_layer_name_pure (w : world) : snd (last_layer_name w) = w.
Proof.
  unfold last_layer_name, bind, get_attr, lift.
  destruct (seq_index _ _) as [last|e]; [|reflexivity].
  destruct (getitem last 0) as [l0|e]; [|reflexivity].
  reflexivity.
Qed.

Lemma last_hidden_layer_pure (w : world) : snd (last_hidden_layer w) = w.
Proof. reflexivity. Qed.

(** Finding the input width of the heads changes nothing and builds
    nothing. *)
Lemma output_layer_input_dim_pure (w : world) : snd (output_layer_input_dim w) = w.
Proof.
  unfold output_layer_input_dim, bind.
  pose proof (last_layer_name_pure w) as Hname.
  destruct (last_layer_name w) as [[name|e] w1]; simpl in Hname; subst w1; [|reflexivity].
  destruct (String.eqb name "adaptivemaxpool" || String.eqb name "adaptiveavgpool").
  - unfold last_hidden_layer, bind, get_attr, lift.
    destruct (seq_index _ _) as [m|e]; [|reflexivity].
    destruct (output_size m) as [s|e]; reflexivity.
  - pose proof (last_layer_name_pure w) as Hname.
    destruct (last_layer_name w) as [[name'|e] w1]; simpl in Hname; subst w1; [|reflexivity].
    destruct (String.eqb name' "linear"); [|reflexivity].
    unfold last_hidden_layer, bind, get_attr, lift.
    destruct (seq_index _ _) as [m|e]; reflexivity.
Qed.

Lemma for_each_output (width : pyval) (dims : list pyval) :
  forall acc w,
    for_each dims (output_layer_body width) acc w =
    (Ok (acc ++ map (Linear width) dims), record_built (map (Linear width) dims) w).
Proof.
  induction dims as [|d dims IH]; intros acc w.
  - simpl. unfold ret. now rewrite app_nil_r, record_built_nil.
  - cbn [for_each]. unfold bind at 1. unfold output_layer_body at 1.
    unfold bind, new, ret. rewrite IH. rewrite <- app_assoc.
    unfold record_built. simpl. now rewrite <- app_assoc.
Qed.

(** The factory, once the input width is known: one linear layer for each
    requested dimension, after [self.output_dim] has been made a list. *)
Lemma create_output_layers_spec (w : world) :
  create_output_layers w =
  match fst (output_layer_input_dim w) with
  | Ok width =>
      let heads := map (Linear width) (requested_dims (output_dim (self w))) in
      (Ok heads, record_built heads (normalised w))
  | Raise e => (Raise e, w)
  end.
Proof.
  unfold create_output_layers. unfold bind at 1.
  pose proof (output_layer_input_dim_pure w) as Hpure.
  destruct (output_layer_input_dim w) as [[width|e] w1]; simpl in Hpure; subst w1;
    [|reflexivity].
  unfold bind, get_attr, set_output_dim, modify_self, ret, normalised. simpl.
  destruct (output_dim (self w)) as [z|s|dims] eqn:Hod; simpl.
  - reflexivity.
  - reflexivity.
  - rewrite Hod, for_each_output. reflexivity.
Qed.




Lemma normalised_output_dim (w : world) :
  output_dim (self (normalised w)) = PList (requested_dims (output_dim (self w))).
Proof.
  unfold normalised. destruct (output_dim (self w)) as [z|s|dims] eqn:Hod; simpl; auto.
Qed.

(** ** The claims on the output-layer factory *)



(** C4. When the tag of the last hidden entry, lowercased, is neither
    "linear" nor "adaptivemaxpool" nor "adaptiveavgpool" (it is conv,
    maxpool or avgpool, say), the output-layer factory raises the
    [ValueError] "Don't know dimensions for output layer ..." and leaves
    the state as it was: no head is built. *)
Theorem undetermined_output_shape (w : world) (pre : list pyval) (tag : string)
  (fields : list pyval) :
  hidden_layers_info (self w) = pre ++ [PList (PStr tag :: fields)] ->
  lower tag <> "linear" ->
  lower tag <> "adaptivemaxpool" ->
  lower tag <> "adaptiveavgpool" ->
  create_output_layers w = (Raise (ValueError dont_know_msg), w).
Proof.
  intros Hinfo Hlin Hmax Havg. rewrite create_output_layers_spec.
  unfold output_layer_input_dim, bind.
  rewrite (last_layer_name_snoc w pre tag fields Hinfo).
  destruct (String.eqb_spec (lower tag) "adaptivemaxpool") as [E|_]; [contradiction|].
  destruct (String.eqb_spec (lower tag) "adaptiveavgpool") as [E|_]; [contradiction|].
  cbn [orb]. rewrite (last_layer_name_snoc w pre tag fields Hinfo).
  destruct (String.eqb_spec (lower tag) "linear") as [E|_]; [contradiction|].
  reflexivity.
Qed.

Lemma undetermined_output_shape_witness :
  create_output_layers
    (after_hidden [Conv2d (PInt 1) (PInt 16) (PInt 3) (PInt 1) (PInt 1)]
       (fresh [conv 16 3 1 1] (PInt 10) (PInt 1))) =
  (Raise (ValueError dont_know_msg),
   after_hidden [Conv2d (PInt 1) (PInt 16) (PInt 3) (PInt 1) (PInt 1)]
     (fresh [conv 16 3 1 1] (PInt 10) (PInt 1))).
Proof.
  apply (undetermined_output_shape _ [] "conv" [PInt 16; PInt 3; PInt 1; PInt 1]).
  - reflexivity.
  - vm_compute. discriminate.
  - vm_compute. discriminate.
  - vm_compute. discriminate.
Defined.



(** C8. When the output-layer factory has returned, [self.output_dim] is
    a list: the list it was when it was one, and the one-element list of
    the integer it was otherwise. *)
Theorem output_dim_normalised (w : world) (heads : list Module_) (w' : world) :
  create_output_layers w = (Ok heads, w') ->
  isinstance_list (output_dim (self w')) = true /\
  (forall dims, output_dim (self w) = PList dims -> output_dim (self w') = PList dims) /\
  (forall n, output_dim (self w) = PInt n -> output_dim (self w') = PList [PInt n]).
Proof.
  rewrite create_output_layers_spec.
  destruct (fst (output_layer_input_dim w)) as [width|e]; intros Hrun; [|discriminate Hrun].
  inversion Hrun; subst. cbn [record_built self].
  rewrite normalised_output_dim.
  split; [reflexivity|]. split.
  - intros dims ->. reflexivity.
  - intros n ->. reflexivity.
Qed.

Lemma output_dim_normalised_witness :
  create_output_layers (after_hidden pooled_layers (fresh pooled_info (PInt 10) (PInt 1))) =
    (Ok [Linear (PInt 16) (PInt 10)],
     record_built [Linear (PInt 16) (PInt 10)]
       (normalised (after_hidden pooled_layers (fresh pooled_info (PInt 10) (PInt 1))))) /\
  output_dim
    (self (record_built [Linear (PInt 16) (PInt 10)]
             (normalised (after_hidden pooled_layers (fresh pooled_info (PInt 10) (PInt 1)))))) =
  PList [PInt 10].
Proof.
  assert (Hrun :
    create_output_layers (after_hidden pooled_layers (fresh pooled_info (PInt 10) (PInt 1))) =
    (Ok [Linear (PInt 16) (PInt 10)],
     record_built [Linear (PInt 16) (PInt 10)]
       (normalised (after_hidden pooled_layers (fresh pooled_info (PInt 10) (PInt 1))))))
    by (vm_compute; reflexivity).
  split; [exact Hrun|].
  exact (proj2 (proj2 (output_dim_normalised _ _ _ Hrun)) 10 eq_refl).
Defined.

(** ** Capitalisation of the tags *)

(** A turn of the loop does not look at [self.hidden_layers_info]. *)
Lemma hidden_layer_body_frame (info : list pyval) (layer : pyval)
  (locals : list Module_ * pyval) (w : world) :
  hidden_layer_body layer locals (with_info info w) =
  (fst (hidden_layer_body layer locals w),
   with_info info (snd (hidden_layer_body layer locals w))).
Proof.
  destruct locals as [acc ch]. unfold hidden_layer_body.
  destruct layer as [z|s|l].
  - reflexivity.
  - run_step. destruct (list_ascii_of_string s) as [|c0 cs]; run_step; [reflexivity|].
    match goal with
    | |- context [bool_decide ?P] => destruct (bool_decide P)
    end; run_step; [|reflexivity].
    cbn.
    repeat (match goal with
            | |- context [Ascii.eqb ?a ?b] => destruct (Ascii.eqb a b)
            end; cbn; try reflexivity).
  - destruct l as [|x [|a [|b [|c [|d rest]]]]]; run_step; try reflexivity;
      (destruct x as [?|tag|?]; run_step; try reflexivity);
      (match goal with
       | |- context [bool_decide ?P] => destruct (bool_decide P)
       end; run_step; [|reflexivity]);
      case_layer_name.
Qed.

(** A turn of the loop reads the tag of its entry through [lower]
    only. *)
Lemma hidden_layer_body_variant (layer1 layer2 : pyval) :
  case_variant layer1 layer2 ->
  forall locals w, hidden_layer_body layer1 locals w = hidden_layer_body layer2 locals w.
Proof.
  intros [s t fields Hlow|layer] [acc ch] w; [|reflexivity].
  unfold hidden_layer_body. run_step. rewrite Hlow. reflexivity.
Qed.

Lemma for_each_hidden_frame (info xs : list pyval) :
  forall locals w,
    for_each xs hidden_layer_body locals (with_info info w) =
    (fst (for_each xs hidden_layer_body locals w),
     with_info info (snd (for_each xs hidden_layer_body locals w))).
Proof.
  induction xs as [|x xs IH]; intros locals w; [reflexivity|].
  cbn [for_each]. unfold bind. rewrite hidden_layer_body_frame.
  destruct (hidden_layer_body x locals w) as [[locals1|e] w1]; simpl; [apply IH|reflexivity].
Qed.

Lemma for_each_hidden_variant (xs ys : list pyval) :
  Forall2 case_variant xs ys ->
  forall locals w,
    for_each xs hidden_layer_body locals w = for_each ys hidden_layer_body locals w.
Proof.
  induction 1 as [|x y xs ys Hxy _ IH]; intros locals w; [reflexivity|].
  cbn [for_each]. unfold bind. rewrite (hidden_layer_body_variant x y Hxy).
  destruct (hidden_layer_body y locals w) as [[locals1|e] w1]; [apply IH|reflexivity].
Qed.

Lemma last_layer_name_variant (info1 info2 : list pyval) (w : world) :
  Forall2 case_variant info1 info2 ->
  fst (last_layer_name (with_info info1 w)) = fst (last_layer_name (with_info info2 w)).
Proof.
  intros Hvar. unfold last_layer_name, bind, get_attr, lift. cbn [with_info self
    with_hidden_layers_info hidden_layers_info].
  destruct info1 as [|x pre1 _] using rev_ind.
  - apply Forall2_nil_inv_l in Hvar. subst. reflexivity.
  - apply Forall2_app_inv_l in Hvar.
    destruct Hvar as (pre2 & k & _ & Hlast & ->).
    apply Forall2_cons_inv_l in Hlast. destruct Hlast as (y & k' & Hxy & Hnil & ->).
    apply Forall2_nil_inv_l in Hnil. subst k'.
    rewrite !seq_index_last.
    destruct Hxy as [s t fields Hlow|layer];
      [|destruct (getitem layer 0); reflexivity].
    run_step. rewrite Hlow. reflexivity.
Qed.

Lemma output_layer_input_dim_congr (w1 w2 : world) :
  hidden_layers (self w1) = hidden_layers (self w2) ->
  fst (last_layer_name w1) = fst (last_layer_name w2) ->
  fst (output_layer_input_dim w1) = fst (output_layer_input_dim w2).
Proof.
  intros Hhl Hname. unfold output_layer_input_dim, bind.
  pose proof (last_layer_name_pure w1) as Hp1.
  pose proof (last_layer_name_pure w2) as Hp2.
  destruct (last_layer_name w1) as [r1 w1'] eqn:E1.
  destruct (last_layer_name w2) as [r2 w2'] eqn:E2.
  simpl in Hp1, Hp2, Hname. subst w1' w2' r2.
  destruct r1 as [name|e]; [|reflexivity].
  destruct (String.eqb name "adaptivemaxpool" || String.eqb name "adaptiveavgpool").
  - unfold last_hidden_layer, bind, get_attr, lift. rewrite Hhl.
    destruct (seq_index _ _) as [m|e]; [|reflexivity].
    destruct (output_size m) as [s|e]; reflexivity.
  - rewrite E1, E2. destruct (String.eqb name "linear"); [|reflexivity].
    unfold last_hidden_layer, bind, get_attr, lift. rewrite Hhl.
    destruct (seq_index _ _) as [m|e]; reflexivity.
Qed.

Lemma normalised_with_info (info : list pyval) (w : world) :
  normalised (with_info info w) = with_info info (normalised w).
Proof.
  unfold normalised. cbn [with_info self with_hidden_layers_info output_dim].
  destruct (isinstance_list (output_dim (self w))); reflexivity.
Qed.

(** C10. Two specifications that differ only in the capitalisation of
    tags give the same run of the hidden-layer factory and of the
    output-layer factory: the same value returned or error raised, the
    same layers built and the same state of the object, each tag being
    lowercased before it is compared. *)
Theorem tag_case_insensitive (w : world) (info1 info2 : list pyval) :
  Forall2 case_variant info1 info2 ->
  (exists r w',
      create_hidden_layers (with_info info1 w) = (r, with_info info1 w') /\
      create_hidden_layers (with_info info2 w) = (r, with_info info2 w')) /\
  (exists r w',
      create_output_layers (with_info info1 w) = (r, with_info info1 w') /\
      create_output_layers (with_info info2 w) = (r, with_info info2 w')).
Proof.
  intros Hvar. split.
  - rewrite !create_hidden_layers_unfold.
    cbn [with_info self with_hidden_layers_info hidden_layers_info input_dim].
    rewrite !for_each_hidden_frame.
    rewrite (for_each_hidden_variant info1 info2 Hvar).
    destruct (for_each info2 hidden_layer_body ([], input_dim (self w)) w)
      as [[locals|e] w1]; simpl; eauto.
  - rewrite !create_output_layers_spec.
    rewrite (output_layer_input_dim_congr (with_info info1 w) (with_info info2 w) eq_refl
               (last_layer_name_variant info1 info2 w Hvar)).
    destruct (fst (output_layer_input_dim (with_info info2 w))) as [width|e].
    + rewrite !normalised_with_info. cbv zeta.
      exists (Ok (map (Linear width) (requested_dims (output_dim (self w))))),
        (record_built (map (Linear width) (requested_dims (output_dim (self w))))
           (normalised w)).
      split; reflexivity.
    + exists (Raise e), w. split; reflexivity.
Qed.

Lemma tag_case_insensitive_witness :
  fst (create_hidden_layers (fresh capitalised_info (PInt 10) (PInt 1))) =
    fst (create_hidden_layers (fresh pooled_info (PInt 10) (PInt 1))) /\
  fst (create_output_layers
         (after_hidden pooled_layers (fresh capitalised_info (PInt 10) (PInt 1)))) =
    fst (create_output_layers
           (after_hidden pooled_layers (fresh pooled_info (PInt 10) (PInt 1)))).
Proof.
  assert (Hvar : Forall2 case_variant capitalised_info pooled_info).
  { repeat constructor. }
  split.
  - destruct (tag_case_insensitive (fresh [] (PInt 10) (PInt 1)) _ _ Hvar)
      as [(r & w' & H1 & H2) _].
    change (fresh capitalised_info (PInt 10) (PInt 1))
      with (with_info capitalised_info (fresh [] (PInt 10) (PInt 1))).
    change (fresh pooled_info (PInt 10) (PInt 1))
      with (with_info pooled_info (fresh [] (PInt 10) (PInt 1))).
    rewrite H1, H2. reflexivity.
  - destruct (tag_case_insensitive
                (after_hidden pooled_layers (fresh [] (PInt 10) (PInt 1))) _ _ Hvar)
      as [_ (r & w' & H1 & H2)].
    change (after_hidden pooled_layers (fresh capitalised_info (PInt 10) (PInt 1)))
      with (with_info capitalised_info
              (after_hidden pooled_layers (fresh [] (PInt 10) (PInt 1)))).
    change (after_hidden pooled_layers (fresh pooled_info (PInt 10) (PInt 1)))
      with (with_info pooled_info
              (after_hidden pooled_layers (fresh [] (PInt 10) (PInt 1)))).
    rewrite H1, H2. reflexivity.
Defined.

(** ** The constructor *)

Lemma check_all_user_inputs_valid_pure `{Base_Network_checks} (w : world) :
  snd (check_all_user_inputs_valid w) = w.
Proof.
  unfold check_all_user_inputs_valid, bind, call_check.
  repeat match goal with
         | |- context [match ?c (self w) with _ => _ end] => destruct (c (self w)) as [[]|?]
         end; reflexivity.
Qed.


(** When the pass over the methods completes, [self.output_dim] is a
    list. *)
Lemma build_layers_output_dim `{Base_Network_checks} (w w' : world) :
  build_layers w = (Ok tt, w') ->
  output_dim (self w') = PList (requested_dims (output_dim (self w))).
Proof.
  unfold build_layers. unfold bind at 1.
  pose proof (check_all_user_inputs_valid_pure w) as Hpure.
  destruct (check_all_user_inputs_valid w) as [[[]|e] w1]; simpl in Hpure; subst w1;
    [|intros Hrun; discriminate Hrun].
  unfold bind at 1.
  destruct (create_hidden_layers w) as [[hl|e] w1] eqn:Hhidden;
    [|intros Hrun; discriminate Hrun].
  destruct (create_hidden_layers_ok _ _ _ Hhidden) as [_ ->].
  unfold bind at 1. unfold modify_self at 1. unfold bind at 1.
  rewrite create_output_layers_spec.
  destruct (fst (output_layer_input_dim _)) as [width|e];
    [|intros Hrun; discriminate Hrun].
  cbv zeta. unfold modify_self. intros Hrun. inversion Hrun; subst. simpl.
  rewrite normalised_output_dim. reflexivity.
Qed.





(** * Further properties of the code *)

(** ** Which entries the hidden-layer factory accepts *)

Lemma arity_in_six (name : string) : arity name = None <-> name ∉ six_layer_types.
Proof.
  rewrite in_six. unfold arity.
  repeat match goal with
         | |- context [String.eqb ?a ?b] => destruct (String.eqb_spec a b) as [?|?]
         end; split; try discriminate; try tauto; intros Hout; exfalso; apply Hout; tauto.
Qed.

(** A turn of the loop on an entry without error builds its layer. *)
Lemma hidden_layer_body_accepted (layer : pyval) (acc : list Module_) (ch : pyval)
  (w : world) :
  entry_error layer = None ->
  valid_cnn_hidden_layer_types (self w) = six_layer_types ->
  exists m ch',
    hidden_layer_body layer (acc, ch) w = (Ok (acc ++ [m], ch'), record_built [m] w) /\
    builds ch layer m ch'.
Proof.
  intros Hacc Hvalid.
  destruct layer as [?|[|? ?]|[|[?|tag|?] fields]]; try discriminate Hacc.
  simpl in Hacc. unfold arity in Hacc.
  unfold hidden_layer_body. run_step. rewrite Hvalid.
  repeat match type of Hacc with
         | context [String.eqb ?a ?b] => destruct (String.eqb_spec a b) as [E|_]
         end;
    try discriminate Hacc;
    rewrite E;
    (rewrite bool_decide_eq_true_2 by (apply in_six; tauto));
    (destruct fields as [|f1 [|f2 [|f3 [|f4 fields]]]]; try discriminate Hacc);
    run_step;
    (eexists _, _; split; [reflexivity | constructor; assumption]).
Qed.

(** A turn of the loop on any other entry raises the error of the entry
    and leaves the state as it was. *)
Lemma hidden_layer_body_rejected (layer : pyval) (e : exn) (acc : list Module_)
  (ch : pyval) (w : world) :
  entry_error layer = Some e ->
  valid_cnn_hidden_layer_types (self w) = six_layer_types ->
  hidden_layer_body layer (acc, ch) w = (Raise e, w).
Proof.
  intros Herr Hvalid.
  destruct layer as [z|s|l].
  - inversion Herr; subst. reflexivity.
  - destruct s as [|c s]; inversion Herr; subst; [reflexivity|].
    unfold hidden_layer_body. run_step. rewrite Hvalid.
    rewrite bool_decide_eq_false_2; [reflexivity|].
    rewrite in_six. intros [E|[E|[E|[E|[E|E]]]]]; discriminate E.
  - destruct l as [|x fields]; [inversion Herr; subst; reflexivity|].
    destruct x as [z|tag|l0]; try (inversion Herr; subst; reflexivity).
    simpl in Herr. destruct (arity (lower tag)) as [n|] eqn:Har.
    + destruct (n <=? length fields)%nat eqn:Hlen; [discriminate Herr|].
      inversion Herr; subst e. clear Herr.
      unfold arity in Har. unfold hidden_layer_body. run_step. rewrite Hvalid.
      repeat match type of Har with
             | context [String.eqb ?a ?b] => destruct (String.eqb_spec a b) as [E|_]
             end;
        try discriminate Har;
        inversion Har; subst n;
        rewrite E;
        (rewrite bool_decide_eq_true_2 by (apply in_six; tauto));
        (destruct fields as [|f1 [|f2 [|f3 [|f4 fields]]]]; try discriminate Hlen);
        run_step; reflexivity.
    + inversion Herr; subst e.
      apply hidden_layer_body_invalid; [|exact Hvalid].
      apply arity_in_six. exact Har.
Qed.

Lemma for_each_hidden_accepted (info : list pyval) :
  forall acc ch w,
    Forall (fun layer => entry_error layer = None) info ->
    valid_cnn_hidden_layer_types (self w) = six_layer_types ->
    exists ms ch',
      for_each info hidden_layer_body (acc, ch) w = (Ok (acc ++ ms, ch'), record_built ms w) /\
      threaded ch info ms ch'.
Proof.
  induction info as [|layer info IH]; intros acc ch w Hacc Hvalid.
  - exists [], ch. rewrite app_nil_r, record_built_nil. split; [reflexivity|constructor].
  - inversion Hacc as [|? ? Hlayer Hrest]; subst.
    destruct (hidden_layer_body_accepted layer acc ch w Hlayer Hvalid)
      as (m & ch1 & Hbody & Hm).
    destruct (IH (acc ++ [m]) ch1 (record_built [m] w) Hrest Hvalid)
      as (ms & ch2 & Hrun & Hms).
    exists (m :: ms), ch2. cbn [for_each]. unfold bind. rewrite Hbody, Hrun.
    rewrite <- app_assoc, record_built_app. simpl.
    split; [reflexivity | econstructor; eassumption].
Qed.

Lemma for_each_hidden_ok_accepted (info : list pyval) :
  forall locals w locals' w',
    valid_cnn_hidden_layer_types (self w) = six_layer_types ->
    for_each info hidden_layer_body locals w = (Ok locals', w') ->
    Forall (fun layer => entry_error layer = None) info.
Proof.
  induction info as [|layer info IH]; intros [acc ch] w locals' w' Hvalid Hrun.
  - constructor.
  - cbn [for_each] in Hrun. unfold bind in Hrun.
    destruct (entry_error layer) as [e|] eqn:Herr.
    + rewrite (hidden_layer_body_rejected layer e acc ch w Herr Hvalid) in Hrun.
      discriminate Hrun.
    + destruct (hidden_layer_body_accepted layer acc ch w Herr Hvalid)
        as (m & ch1 & Hbody & _).
      rewrite Hbody in Hrun. constructor; [exact Herr|].
      eapply IH; [|exact Hrun]. exact Hvalid.
Qed.

Lemma builds_functional (ch layer : pyval) (m1 m2 : Module_) (c1 c2 : pyval) :
  builds ch layer m1 c1 -> builds ch layer m2 c2 -> m1 = m2 /\ c1 = c2.
Proof.
  intros H1 H2. inversion H1; subst; inversion H2; subst; try congruence; auto.
Qed.

Lemma threaded_functional (ch : pyval) (info : list pyval) (ms1 : list Module_) (c1 : pyval) :
  threaded ch info ms1 c1 ->
  forall ms2 c2, threaded ch info ms2 c2 -> ms1 = ms2 /\ c1 = c2.
Proof.
  induction 1 as [|ch layer m ch1 layers ms ch2 Hm Hrest IH]; intros ms2 c2 H2.
  - inversion H2; subst. auto.
  - inversion H2 as [|? ? m' ch1' ? ms' ? Hm' Hrest']; subst.
    destruct (builds_functional _ _ _ _ _ _ Hm Hm') as [-> ->].
    destruct (IH _ _ Hrest') as [-> ->]. auto.
Qed.

Lemma threaded_app (ch : pyval) (info1 : list pyval) (ms1 : list Module_) (c1 : pyval) :
  threaded ch info1 ms1 c1 ->
  forall info2 ms2 c2,
    threaded c1 info2 ms2 c2 -> threaded ch (info1 ++ info2) (ms1 ++ ms2) c2.
Proof.
  induction 1 as [|ch layer m ch1 layers ms ch2 Hm Hrest IH]; intros info2 ms2 c2 H2.
  - exact H2.
  - simpl. econstructor; [exact Hm|]. apply IH. exact H2.
Qed.

(** What a run of the loop does to the state, whatever the valid names
    are. *)
Lemma for_each_hidden_effect (info : list pyval) :
  forall acc ch w,
  exists ms,
    snd (for_each info hidden_layer_body (acc, ch) w) = record_built ms w /\
    match fst (for_each info hidden_layer_body (acc, ch) w) with
    | Ok locals => fst locals = acc ++ ms /\ length ms = length info
    | Raise _ => (length ms < length info)%nat
    end.
Proof.
  induction info as [|layer info IH]; intros acc ch w.
  - exists []. simpl. rewrite record_built_nil, app_nil_r. auto.
  - cbn [for_each]. unfold bind.
    pose proof (hidden_layer_body_spec layer acc ch w) as Hbody.
    destruct (hidden_layer_body layer (acc, ch) w) as [[[acc1 ch1]|e] w1].
    + destruct Hbody as (m & _ & -> & ->).
      destruct (IH (acc ++ [m]) ch1 (record_built [m] w)) as (ms & Hsnd & Hfst).
      exists (m :: ms). rewrite Hsnd, record_built_app. split; [reflexivity|].
      destruct (fst (for_each info hidden_layer_body _ _)) as [locals|e].
      * destruct Hfst as [-> Hlen]. rewrite <- app_assoc. simpl. auto.
      * simpl. lia.
    + subst w1. exists []. simpl. rewrite record_built_nil. split; [reflexivity|lia].
Qed.

(** A turn of the loop reads no field beyond those of the form of its
    entry. *)
Lemma hidden_layer_body_trim (layer : pyval) (locals : list Module_ * pyval) (w : world) :
  hidden_layer_body (trim layer) locals w = hidden_layer_body layer locals w.
Proof.
  destruct locals as [acc ch].
  destruct layer as [z|s|[|[z|tag|l0] fields]]; try reflexivity.
  unfold trim. destruct (arity (lower tag)) as [n|] eqn:Har; [|reflexivity].
  unfold arity in Har. unfold hidden_layer_body. run_step.
  match goal with
  | |- context [bool_decide ?P] => destruct (bool_decide P)
  end; run_step; [|reflexivity].
  repeat match type of Har with
         | context [String.eqb ?a ?b] => destruct (String.eqb_spec a b) as [E|_]
         end;
    try discriminate Har;
    inversion Har; subst n;
    (destruct fields as [|f1 [|f2 [|f3 [|f4 fields]]]]; run_step; reflexivity).
Qed.

Lemma for_each_hidden_trim (info : list pyval) :
  forall locals w,
    for_each (map trim info) hidden_layer_body locals w =
    for_each info hidden_layer_body locals w.
Proof.
  induction info as [|layer info IH]; intros locals w; [reflexivity|].
  simpl map. cbn [for_each]. unfold bind. rewrite hidden_layer_body_trim.
  destruct (hidden_layer_body layer locals w) as [[locals1|e] w1]; [apply IH|reflexivity].
Qed.

Lemma create_hidden_layers_with_info (info : list pyval) (w : world) :
  create_hidden_layers (with_info info w) =
  match for_each info hidden_layer_body ([], input_dim (self w)) w with
  | (Ok locals, w') => (Ok (fst locals), with_info info w')
  | (Raise e, w') => (Raise e, with_info info w')
  end.
Proof.
  rewrite create_hidden_layers_unfold.
  cbn [with_info self with_hidden_layers_info hidden_layers_info input_dim].
  rewrite for_each_hidden_frame.
  destruct (for_each info hidden_layer_body ([], input_dim (self w)) w)
    as [[locals|e] w1]; reflexivity.
Qed.

(** X1. With the six valid names, the hidden-layer factory returns only
    on a specification of which every entry is a list that starts with a
    string whose lowercase is one of the six names and that has at least
    the fields of its form after it. *)
Theorem accepted_specifications (w : world) (hl : list Module_) (w' : world) :
  valid_cnn_hidden_layer_types (self w) = six_layer_types ->
  create_hidden_layers w = (Ok hl, w') ->
  Forall (fun layer => entry_error layer = None) (hidden_layers_info (self w)).
Proof.
  intros Hvalid. rewrite create_hidden_layers_unfold. intros Hrun.
  destruct (for_each _ _ _ w) as [[locals|e] w1] eqn:Hloop; [|discriminate Hrun].
  exact (for_each_hidden_ok_accepted _ _ _ _ _ Hvalid Hloop).
Qed.

Lemma accepted_specifications_witness :
  create_hidden_layers (fresh example_info (PInt 10) (PInt 3)) =
    (Ok example_layers, record_built example_layers (fresh example_info (PInt 10) (PInt 3))) /\
  Forall (fun layer => entry_error layer = None) example_info.
Proof.
  assert (Hrun : create_hidden_layers (fresh example_info (PInt 10) (PInt 3)) =
    (Ok example_layers, record_built example_layers (fresh example_info (PInt 10) (PInt 3))))
    by (vm_compute; reflexivity).
  split; [exact Hrun|].
  exact (accepted_specifications (fresh example_info (PInt 10) (PInt 3)) _ _ eq_refl Hrun).
Defined.

(** X2. With the six valid names, when the hidden-layer factory returns
    on the entries before it, an entry with an error makes the factory
    raise that error: [TypeError] for an integer entry, [IndexError] for
    an empty entry or one with fewer fields than its form,
    [AttributeError] for a tag that is not a string, the assertion error
    for an unknown ASCII tag. The layers built by then are the layers of
    the entries before it, and the entries after it are not looked at. *)
Theorem first_rejected_entry (w : world) (pre : list pyval) (layer : pyval)
  (post : list pyval) (e : exn) (hl : list Module_) :
  valid_cnn_hidden_layer_types (self w) = six_layer_types ->
  fst (create_hidden_layers (with_info pre w)) = Ok hl ->
  entry_error layer = Some e ->
  ascii_tag layer = true ->
  create_hidden_layers (with_info (pre ++ layer :: post) w) =
  (Raise e, with_info (pre ++ layer :: post) (record_built hl w)).
Proof.
  intros Hvalid Hpre Herr _.
  rewrite create_hidden_layers_with_info in Hpre.
  rewrite create_hidden_layers_with_info, for_each_app.
  destruct (for_each pre hidden_layer_body ([], input_dim (self w)) w)
    as [[[acc ch]|e'] w1] eqn:Hloop; [|discriminate Hpre].
  apply for_each_hidden_ok in Hloop. destruct Hloop as (ms & _ & Hacc & ->).
  simpl in Hpre, Hacc. inversion Hpre; subst.
  cbn [for_each]. unfold bind.
  rewrite (hidden_layer_body_rejected layer e) by assumption.
  reflexivity.
Qed.

Lemma first_rejected_entry_witness :
  create_hidden_layers
    (with_info ([conv 16 3 1 1] ++ PList [PStr "maxpool"; PInt 2] :: [linear 16 10])
       (fresh [] (PInt 10) (PInt 1))) =
  (Raise IndexError,
   with_info ([conv 16 3 1 1] ++ PList [PStr "maxpool"; PInt 2] :: [linear 16 10])
     (record_built [Conv2d (PInt 1) (PInt 16) (PInt 3) (PInt 1) (PInt 1)]
        (fresh [] (PInt 10) (PInt 1)))).
Proof.
  apply (first_rejected_entry (fresh [] (PInt 10) (PInt 1)) [conv 16 3 1 1]
           (PList [PStr "maxpool"; PInt 2]) [linear 16 10] IndexError).
  - reflexivity.
  - vm_compute. reflexivity.
  - reflexivity.
  - reflexivity.
Defined.

(** X3. The hidden-layer factory never reads the elements of an entry
    beyond the fields of its form: on a specification and on the same
    specification with every entry cut down to its form it returns the
    same layers or raises the same error, and builds the same layers. *)
Theorem trailing_fields_ignored (w : world) (info : list pyval) :
  fst (create_hidden_layers (with_info (map trim info) w)) =
    fst (create_hidden_layers (with_info info w)) /\
  built (snd (create_hidden_layers (with_info (map trim info) w))) =
    built (snd (create_hidden_layers (with_info info w))).
Proof.
  rewrite !create_hidden_layers_with_info, for_each_hidden_trim.
  destruct (for_each info hidden_layer_body ([], input_dim (self w)) w)
    as [[locals|e] w1]; split; reflexivity.
Qed.

(** X4. The hidden-layer factory stops at the first entry that raises:
    when it raises on a specification, it raises the same error, with the
    same layers built, on every specification that goes on after it. *)
Theorem fail_fast_on_extension (w : world) (pre post : list pyval) (e : exn) :
  fst (create_hidden_layers (with_info pre w)) = Raise e ->
  fst (create_hidden_layers (with_info (pre ++ post) w)) = Raise e /\
  built (snd (create_hidden_layers (with_info (pre ++ post) w))) =
    built (snd (create_hidden_layers (with_info pre w))).
Proof.
  rewrite !create_hidden_layers_with_info, for_each_app.
  destruct (for_each pre hidden_layer_body ([], input_dim (self w)) w)
    as [[locals|e'] w1]; intros Hrun; [discriminate Hrun|].
  split; [exact Hrun|reflexivity].
Qed.

Lemma fail_fast_on_extension_witness :
  fst (create_hidden_layers
         (with_info (bogus_info ++ [linear 16 10]) (fresh [] (PInt 10) (PInt 1)))) =
    Raise (AssertionError (layer_name_msg "bogus" six_layer_types)) /\
  built (snd (create_hidden_layers
                (with_info (bogus_info ++ [linear 16 10]) (fresh [] (PInt 10) (PInt 1))))) =
    built (snd (create_hidden_layers (with_info bogus_info (fresh [] (PInt 10) (PInt 1))))).
Proof.
  apply (fail_fast_on_extension (fresh [] (PInt 10) (PInt 1)) bogus_info [linear 16 10]).
  vm_compute. reflexivity.
Defined.

(** X5. With the six valid names, the layers of a concatenation are the
    layers of its parts: when the hidden-layer factory returns [hl1] on
    [info1], and [hl2] on [info2] for a network whose input channel count
    is the running channel count after [info1], it returns [hl1 ++ hl2]
    on [info1 ++ info2]. *)
Theorem hidden_layers_of_concatenation (w : world) (info1 info2 : list pyval)
  (hl1 hl2 : list Module_) :
  valid_cnn_hidden_layer_types (self w) = six_layer_types ->
  fst (create_hidden_layers (with_info info1 w)) = Ok hl1 ->
  fst (create_hidden_layers
         (with_info info2
            (with_input_dim (running_channels (input_dim (self w)) info1) w))) = Ok hl2 ->
  fst (create_hidden_layers (with_info (info1 ++ info2) w)) = Ok (hl1 ++ hl2).
Proof.
  intros Hvalid. rewrite !create_hidden_layers_with_info.
  cbn [with_input_dim self input_dim].
  set (d := input_dim (self w)). set (w2 := with_input_dim (running_channels d info1) w).
  destruct (for_each info1 hidden_layer_body ([], d) w) as [[[acc1 c1]|e] w1'] eqn:H1;
    intros Hrun1; [|discriminate Hrun1].
  destruct (for_each info2 hidden_layer_body ([], running_channels d info1) w2)
    as [[[acc2 c2]|e] w2'] eqn:H2; intros Hrun2; [|discriminate Hrun2].
  simpl in Hrun1, Hrun2. inversion Hrun1; inversion Hrun2; subst acc1 acc2.
  pose proof (for_each_hidden_ok_accepted _ _ _ _ _ Hvalid H1) as Hacc1.
  pose proof (for_each_hidden_ok_accepted _ _ w2 _ _ Hvalid H2) as Hacc2.
  apply for_each_hidden_ok in H1. destruct H1 as (ms1 & Hth1 & Hms1 & _).
  apply for_each_hidden_ok in H2. destruct H2 as (ms2 & Hth2 & Hms2 & _).
  simpl in Hms1, Hms2. subst ms1 ms2.
  rewrite <- (threaded_running _ _ _ _ Hth1) in Hth2.
  pose proof (threaded_app _ _ _ _ Hth1 _ _ _ Hth2) as Hth.
  assert (Hacc : Forall (fun layer => entry_error layer = None) (info1 ++ info2))
    by (apply Forall_app; split; assumption).
  destruct (for_each_hidden_accepted _ [] d w Hacc Hvalid) as (ms & ch' & Hrun & Hth').
  rewrite Hrun. simpl.
  destruct (threaded_functional _ _ _ _ Hth' _ _ Hth) as [-> _]. reflexivity.
Qed.

Lemma hidden_layers_of_concatenation_witness :
  fst (create_hidden_layers
         (with_info ([conv 16 3 1 1; maxpool 2 2 0] ++ [conv 32 3 1 1; linear 16 10])
            (fresh [] (PInt 10) (PInt 3)))) =
  Ok ([Conv2d (PInt 3) (PInt 16) (PInt 3) (PInt 1) (PInt 1);
       MaxPool2d (PInt 2) (PInt 2) (PInt 0)] ++
      [Conv2d (PInt 16) (PInt 32) (PInt 3) (PInt 1) (PInt 1); Linear (PInt 16) (PInt 10)]).
Proof.
  apply (hidden_layers_of_concatenation (fresh [] (PInt 10) (PInt 3))).
  - reflexivity.
  - vm_compute. reflexivity.
  - vm_compute. reflexivity.
Defined.

(** X6. Whatever the valid names are and whether it returns or raises,
    the hidden-layer factory leaves every field of the object as it was
    and only appends to the layers built: when it returns, the layers it
    built are the layers it returns, one for each entry; when it raises,
    it has built fewer layers than there are entries. *)
Theorem hidden_factory_effect (w : world) :
  self (snd (create_hidden_layers w)) = self w /\
  exists ms,
    built (snd (create_hidden_layers w)) = built w ++ ms /\
    match fst (create_hidden_layers w) with
    | Ok hl => ms = hl /\ length hl = length (hidden_layers_info (self w))
    | Raise _ => (length ms < length (hidden_layers_info (self w)))%nat
    end.
Proof.
  rewrite create_hidden_layers_unfold.
  destruct (for_each_hidden_effect (hidden_layers_info (self w)) [] (input_dim (self w)) w)
    as (ms & Hsnd & Hfst).
  destruct (for_each _ _ _ w) as [[locals|e] w1]; simpl in *; subst w1.
  - split; [reflexivity|]. exists ms. split; [reflexivity|].
    destruct Hfst as [-> Hlen]. auto.
  - split; [reflexivity|]. exists ms. split; [reflexivity|exact Hfst].
Qed.

(** ** Further properties of the output-layer factory *)

Lemma last_layer_name_info (w1 w2 : world) :
  hidden_layers_info (self w1) = hidden_layers_info (self w2) ->
  fst (last_layer_name w1) = fst (last_layer_name w2).
Proof.
  intros Hinfo. unfold last_layer_name, bind, get_attr, lift. rewrite Hinfo.
  destruct (seq_index _ _) as [last|e]; [|reflexivity].
  destruct (getitem last 0) as [l0|e]; reflexivity.
Qed.

Lemma normalised_fields (w : world) :
  hidden_layers_info (self (normalised w)) = hidden_layers_info (self w) /\
  hidden_layers (self (normalised w)) = hidden_layers (self w) /\
  built (normalised w) = built w.
Proof.
  unfold normalised. destruct (isinstance_list (output_dim (self w))); auto.
Qed.

Lemma normalised_idem (w : world) : normalised (normalised w) = normalised w.
Proof.
  unfold normalised at 1. rewrite normalised_output_dim. reflexivity.
Qed.

Lemma normalised_record_built (ms : list Module_) (w : world) :
  normalised (record_built ms (normalised w)) = record_built ms (normalised w).
Proof.
  unfold normalised.
  destruct (output_dim (self w)) as [z|s|dims] eqn:Hod; cbn; rewrite ?Hod; reflexivity.
Qed.

(** X7. Whatever it does, the output-layer factory leaves the fields of
    the object other than [self.output_dim] as they were, leaves
    [self.output_dim] as it was or wraps it in a one-element list, and
    only appends to the layers built. *)
Theorem output_factory_effect (w : world) :
  let s := self w in
  let s' := self (snd (create_output_layers w)) in
  input_dim s' = input_dim s /\
  hidden_layers_info s' = hidden_layers_info s /\
  valid_cnn_hidden_layer_types s' = valid_cnn_hidden_layer_types s /\
  hidden_layers s' = hidden_layers s /\
  output_layers s' = output_layers s /\
  (output_dim s' = output_dim s \/ output_dim s' = PList [output_dim s]) /\
  exists ms, built (snd (create_output_layers w)) = built w ++ ms.
Proof.
  cbv zeta. rewrite create_output_layers_spec.
  destruct (fst (output_layer_input_dim w)) as [width|e]; cbn [snd].
  - cbn [record_built self built]. unfold normalised.
    destruct (output_dim (self w)) as [z|t|dims] eqn:Hod; cbn; rewrite ?Hod;
      repeat split; eauto.
  - repeat split; auto. exists []. now rewrite app_nil_r.
Qed.

(** X8. On an empty specification the hidden-layer factory returns the
    empty list and builds nothing, and the output-layer factory raises
    [IndexError], from [self.hidden_layers_info[-1]], and not the
    [ValueError] of an undetermined output shape. *)
Theorem empty_specification (w : world) :
  hidden_layers_info (self w) = [] ->
  create_hidden_layers w = (Ok [], w) /\
  create_output_layers w = (Raise IndexError, w).
Proof.
  intros Hinfo. split.
  - rewrite create_hidden_layers_unfold, Hinfo. reflexivity.
  - rewrite create_output_layers_spec.
    unfold output_layer_input_dim, last_layer_name, bind, get_attr, lift.
    rewrite Hinfo, seq_index_nil. reflexivity.
Qed.

Lemma empty_specification_witness :
  create_hidden_layers (fresh [] (PInt 10) (PInt 1)) = (Ok [], fresh [] (PInt 10) (PInt 1)) /\
  create_output_layers (fresh [] (PInt 10) (PInt 1)) =
    (Raise IndexError, fresh [] (PInt 10) (PInt 1)).
Proof. apply (empty_specification (fresh [] (PInt 10) (PInt 1))). reflexivity. Defined.

(** X9. The output-layer factory can be run again: after it has returned
    heads, a second run returns the same heads, builds them once more and
    leaves [self.output_dim] the list the first run made it. *)
Theorem output_factory_repeatable (w : world) (heads : list Module_) (w' : world) :
  create_output_layers w = (Ok heads, w') ->
  create_output_layers w' = (Ok heads, record_built heads w').
Proof.
  rewrite create_output_layers_spec.
  destruct (fst (output_layer_input_dim w)) as [width|e] eqn:Hwidth; intros Hrun;
    [|discriminate Hrun].
  cbv zeta in Hrun. inversion Hrun; subst heads w'. clear Hrun.
  set (heads := map (Linear width) (requested_dims (output_dim (self w)))).
  destruct (normalised_fields w) as (Hinfo & Hhl & _).
  rewrite create_output_layers_spec.
  assert (Hsame : fst (output_layer_input_dim
                         (record_built heads (normalised w))) = Ok width).
  { rewrite <- Hwidth. apply output_layer_input_dim_congr.
    - exact Hhl.
    - apply last_layer_name_info. exact Hinfo. }
  rewrite Hsame. cbv zeta.
  assert (Hod : output_dim (self (record_built heads (normalised w))) =
                PList (requested_dims (output_dim (self w))))
    by apply normalised_output_dim.
  rewrite Hod. cbn [requested_dims]. fold heads.
  rewrite normalised_record_built. reflexivity.
Qed.

Lemma output_factory_repeatable_witness :
  create_output_layers (after_hidden pooled_layers (fresh pooled_info (PInt 10) (PInt 1))) =
    (Ok [Linear (PInt 16) (PInt 10)],
     record_built [Linear (PInt 16) (PInt 10)]
       (normalised (after_hidden pooled_layers (fresh pooled_info (PInt 10) (PInt 1))))) /\
  create_output_layers
    (record_built [Linear (PInt 16) (PInt 10)]
       (normalised (after_hidden pooled_layers (fresh pooled_info (PInt 10) (PInt 1))))) =
    (Ok [Linear (PInt 16) (PInt 10)],
     record_built [Linear (PInt 16) (PInt 10)]
       (record_built [Linear (PInt 16) (PInt 10)]
          (normalised (after_hidden pooled_layers (fresh pooled_info (PInt 10) (PInt 1)))))).
Proof.
  assert (Hrun :
    create_output_layers (after_hidden pooled_layers (fresh pooled_info (PInt 10) (PInt 1))) =
    (Ok [Linear (PInt 16) (PInt 10)],
     record_built [Linear (PInt 16) (PInt 10)]
       (normalised (after_hidden pooled_layers (fresh pooled_info (PInt 10) (PInt 1))))))
    by (vm_compute; reflexivity).
  split; [exact Hrun|].
  exact (output_factory_repeatable _ _ _ Hrun).
Defined.

(** X10. Of [self.hidden_layers_info] the output-layer factory reads the
    tag of the last entry and nothing else: two specifications whose last
    entries are lists that start with the same tag give the same heads or
    the same error, and the same layers built, whatever their other
    entries and the fields of the last ones are. *)
Theorem output_factory_reads_last_tag_only (w : world) (pre1 pre2 : list pyval)
  (tag : string) (fields1 fields2 : list pyval) :
  fst (create_output_layers (with_info (pre1 ++ [PList (PStr tag :: fields1)]) w)) =
    fst (create_output_layers (with_info (pre2 ++ [PList (PStr tag :: fields2)]) w)) /\
  built (snd (create_output_layers (with_info (pre1 ++ [PList (PStr tag :: fields1)]) w))) =
    built (snd (create_output_layers (with_info (pre2 ++ [PList (PStr tag :: fields2)]) w))).
Proof.
  rewrite !create_output_layers_spec.
  assert (Hname : forall pre fields,
             fst (last_layer_name (with_info (pre ++ [PList (PStr tag :: fields)]) w)) =
             Ok (lower tag)).
  { intros pre fields.
    rewrite (last_layer_name_snoc _ pre tag fields); reflexivity. }
  rewrite (output_layer_input_dim_congr
             (with_info (pre1 ++ [PList (PStr tag :: fields1)]) w)
             (with_info (pre2 ++ [PList (PStr tag :: fields2)]) w) eq_refl)
    by (rewrite !Hname; reflexivity).
  destruct (fst (output_layer_input_dim _)) as [width|e].
  - rewrite !normalised_with_info. split; reflexivity.
  - split; reflexivity.
Qed.

(** The input width, from the tag of the last entry and the last stored
    hidden layer. *)
Lemma output_layer_input_dim_stored (w : world) (pre : list pyval) (tag : string)
  (fields : list pyval) (hl0 : list Module_) (m : Module_) :
  hidden_layers_info (self w) = pre ++ [PList (PStr tag :: fields)] ->
  hidden_layers (self w) = hl0 ++ [m] ->
  output_layer_input_dim w =
  (if String.eqb (lower tag) "adaptivemaxpool" || String.eqb (lower tag) "adaptiveavgpool"
   then match output_size m with
        | Ok s => py_mul (fst s) (snd s)
        | Raise e => Raise e
        end
   else if String.eqb (lower tag) "linear" then out_features m
        else Raise (ValueError dont_know_msg),
   w).
Proof.
  intros Hinfo Hhl. unfold output_layer_input_dim, bind.
  rewrite (last_layer_name_snoc w pre tag fields Hinfo).
  destruct (String.eqb (lower tag) "adaptivemaxpool" ||
            String.eqb (lower tag) "adaptiveavgpool").
  - rewrite (last_hidden_layer_snoc w hl0 m Hhl). unfold lift.
    destruct m; cbn [output_size]; try reflexivity;
      rewrite (last_hidden_layer_snoc w hl0 _ Hhl); reflexivity.
  - rewrite (last_layer_name_snoc w pre tag fields Hinfo).
    destruct (String.eqb (lower tag) "linear"); [|reflexivity].
    rewrite (last_hidden_layer_snoc w hl0 m Hhl). reflexivity.
Qed.

(** X11. The input width of the heads is read from the last layer stored
    in [self.hidden_layers], not from the fields of the last entry:
    whenever the output-layer factory returns, under an adaptive-pool tag
    every head has as input width the product of the two sizes of that
    layer, under a linear tag its output feature count, with one head for
    each requested dimension. *)
Theorem stored_layer_width (w : world) (pre : list pyval) (tag : string)
  (fields : list pyval) (hl0 : list Module_) (m : Module_) (h v : Z) (width : pyval)
  (heads : list Module_) (w' : world) :
  hidden_layers_info (self w) = pre ++ [PList (PStr tag :: fields)] ->
  hidden_layers (self w) = hl0 ++ [m] ->
  ((lower tag = "adaptivemaxpool" \/ lower tag = "adaptiveavgpool") /\
   output_size m = Ok (PInt h, PInt v) /\ width = PInt (h * v)) \/
  (lower tag = "linear" /\ out_features m = Ok width) ->
  create_output_layers w = (Ok heads, w') ->
  heads = map (Linear width) (requested_dims (output_dim (self w))).
Proof.
  intros Hinfo Hhl Hcase. rewrite create_output_layers_spec.
  rewrite (output_layer_input_dim_stored w pre tag fields hl0 m Hinfo Hhl).
  destruct Hcase as [(Htag & Hsize & ->)|(Htag & Hout)].
  - replace (String.eqb (lower tag) "adaptivemaxpool" ||
             String.eqb (lower tag) "adaptiveavgpool") with true
      by (destruct Htag as [-> | ->]; reflexivity).
    rewrite Hsize. cbn. intros Hrun. inversion Hrun. reflexivity.
  - rewrite Htag, Hout. cbn. intros Hrun. inversion Hrun. reflexivity.
Qed.

Lemma stored_layer_width_witness :
  create_output_layers
    (after_hidden [AdaptiveMaxPool2d (PInt 2, PInt 3)]
       (fresh pooled_info (PInt 10) (PInt 1))) =
    (Ok [Linear (PInt 6) (PInt 10)],
     record_built [Linear (PInt 6) (PInt 10)]
       (normalised
          (after_hidden [AdaptiveMaxPool2d (PInt 2, PInt 3)]
             (fresh pooled_info (PInt 10) (PInt 1))))) /\
  [Linear (PInt 6) (PInt 10)] = map (Linear (PInt 6)) [PInt 10].
Proof.
  assert (Hrun :
    create_output_layers
      (after_hidden [AdaptiveMaxPool2d (PInt 2, PInt 3)]
         (fresh pooled_info (PInt 10) (PInt 1))) =
    (Ok [Linear (PInt 6) (PInt 10)],
     record_built [Linear (PInt 6) (PInt 10)]
       (normalised
          (after_hidden [AdaptiveMaxPool2d (PInt 2, PInt 3)]
             (fresh pooled_info (PInt 10) (PInt 1))))))
    by (vm_compute; reflexivity).
  split; [exact Hrun|].
  refine (stored_layer_width
            (after_hidden [AdaptiveMaxPool2d (PInt 2, PInt 3)]
               (fresh pooled_info (PInt 10) (PInt 1)))
            [conv 16 3 1 1] "adaptiveavgpool" [PInt 4; PInt 4]
            [] (AdaptiveMaxPool2d (PInt 2, PInt 3)) 2 3 (PInt 6) _ _
            eq_refl eq_refl _ Hrun).
  left. repeat split. right. reflexivity.
Defined.

(** X12. The output-layer factory relies on [self.hidden_layers] being
    in step with the specification. Under a linear or adaptive-pool tag
    it raises [IndexError] when no hidden layer is stored, and
    [AttributeError] when the last stored layer is not of the kind the
    tag names: not an adaptive pool under an adaptive-pool tag, not a
    linear layer under a linear tag. The state is left as it was. *)
Theorem stale_hidden_layers (w : world) (pre : list pyval) (tag : string)
  (fields : list pyval) :
  hidden_layers_info (self w) = pre ++ [PList (PStr tag :: fields)] ->
  lower tag = "adaptivemaxpool" \/ lower tag = "adaptiveavgpool" \/ lower tag = "linear" ->
  (hidden_layers (self w) = [] ->
   create_output_layers w = (Raise IndexError, w)) /\
  (forall hl0 m,
      hidden_layers (self w) = hl0 ++ [m] ->
      (lower tag <> "linear" /\ output_size m = Raise AttributeError) \/
      (lower tag = "linear" /\ out_features m = Raise AttributeError) ->
      create_output_layers w = (Raise AttributeError, w)).
Proof.
  intros Hinfo Htag. split.
  - intros Hhl. rewrite create_output_layers_spec.
    unfold output_layer_input_dim, bind.
    rewrite (last_layer_name_snoc w pre tag fields Hinfo).
    assert (Hlast : last_hidden_layer w = (Raise IndexError, w)).
    { unfold last_hidden_layer, bind, get_attr, lift. rewrite Hhl, seq_index_nil.
      reflexivity. }
    destruct Htag as [Htag | [Htag | Htag]]; rewrite Htag;
      cbn [String.eqb Ascii.eqb Bool.eqb orb];
      rewrite ?(last_layer_name_snoc w pre tag fields Hinfo), ?Htag;
      cbn [String.eqb Ascii.eqb Bool.eqb orb];
      rewrite Hlast; reflexivity.
  - intros hl0 m Hhl Hcase. rewrite create_output_layers_spec.
    rewrite (output_layer_input_dim_stored w pre tag fields hl0 m Hinfo Hhl).
    destruct Hcase as [[Hnot Hsize]|[Hlin Hout]].
    + destruct Htag as [-> | [-> | Hlin]]; [| |contradiction];
        cbn [String.eqb Ascii.eqb Bool.eqb orb]; rewrite Hsize; reflexivity.
    + rewrite Hlin, Hout. reflexivity.
Qed.

Lemma stale_hidden_layers_witness :
  create_output_layers (fresh pooled_info (PInt 10) (PInt 1)) =
    (Raise IndexError, fresh pooled_info (PInt 10) (PInt 1)) /\
  create_output_layers
    (after_hidden [Linear (PInt 16) (PInt 10)] (fresh pooled_info (PInt 10) (PInt 1))) =
    (Raise AttributeError,
     after_hidden [Linear (PInt 16) (PInt 10)] (fresh pooled_info (PInt 10) (PInt 1))).
Proof.
  split.
  - apply (proj1 (stale_hidden_layers (fresh pooled_info (PInt 10) (PInt 1))
                    [conv 16 3 1 1] "adaptiveavgpool" [PInt 4; PInt 4]
                    eq_refl (or_intror (or_introl eq_refl)))).
    reflexivity.
  - apply (proj2 (stale_hidden_layers
                    (after_hidden [Linear (PInt 16) (PInt 10)]
                       (fresh pooled_info (PInt 10) (PInt 1)))
                    [conv 16 3 1 1] "adaptiveavgpool" [PInt 4; PInt 4]
                    eq_refl (or_intror (or_introl eq_refl)))
             [] (Linear (PInt 16) (PInt 10)) eq_refl).
    left. split; [vm_compute; discriminate | reflexivity].
Defined.
